(** * Terminus: the Python expression pipeline
      (service/term_parser.py and service/term_interpreter.py)

    The development follows the two source modules:

    - [Py]: the fragment of the host language both modules rely on
      (exceptions, string methods, character classes of the [re] module,
      dynamically typed values, the host functions that are called but not
      defined in the repository);
    - [Ast]: the dictionaries used as postfix entries and as tree nodes;
    - [term_parser]: [tokenize], the classifier predicates, the tables,
      [shunting_yard], [check_parentheses_balance], [parse_to_tree];
    - [term_interpreter]: the operator tables, [builtin_env], [evaluate];
    - [CPython]: an executable instance of the host functions, used for
      the closed examples;
    - [Spec]: the vocabulary of the properties;
    - the properties, one section per topic.

    Conventions of the model:

    - texts are strings of ASCII code points: [\w], [\d], [\s],
      [str.strip] and [str.lower] are modelled on that range;
    - a function that may raise returns a [result]; an exception stops
      the computation it is raised in, as no [try] of the two modules
      catches one (the two [try] blocks of the parser wrap host calls and
      are part of the function that owns them);
    - a Python list used as a stack is a [list] with its top at the head;
    - a dictionary is an inductive value with one constructor per
      ["type"];
    - [evaluate] is a state transformer over the world that the callables
      it applies may change. *)

From Stdlib Require Import ZArith String Ascii List Bool Lia Floats.
From stdpp Require Import base option list gmap strings pretty.

Open Scope string_scope.
Open Scope list_scope.
Set Warnings "-register-all".

(* ===================================================================== *)
(** * The host language fragment *)
(* ===================================================================== *)

Module Py.

(** ** Exceptions and results *)

Inductive exc : Type :=
| ValueError (msg : string)
| TypeError (msg : string)
| KeyError (key : string)
| IndexError (msg : string)
| NameError (msg : string)
| ZeroDivisionError (msg : string)
| UnicodeDecodeError (msg : string)
| OtherException (kind msg : string).

Inductive result (A : Type) : Type :=
| Ok (a : A)
| Raise (e : exc).
Arguments Ok {A} a.
Arguments Raise {A} e.

#[global] Instance result_bind : MBind result := λ A B k r,
  match r with
  | Ok a => k a
  | Raise e => Raise e
  end.

#[global] Instance result_ret : MRet result := λ A a, Ok a.

Definition is_ok {A} (r : result A) : bool :=
  match r with Ok _ => true | Raise _ => false end.

(** ** Characters

    The classes of the [re] module for [str] patterns, on ASCII:
    [\s] is [Py_UNICODE_ISSPACE] (tab to carriage return, the four
    separators 0x1c-0x1f and the space), which is also what [str.strip]
    removes; [\d] is a decimal digit; [\w] a letter, a digit or the
    underscore. *)

Definition code (c : ascii) : N := N_of_ascii c.

Definition in_range (lo hi : N) (c : ascii) : bool :=
  (lo <=? code c)%N && (code c <=? hi)%N.

Definition is_space (c : ascii) : bool :=
  in_range 9 13 c || in_range 28 32 c.

Definition is_digit (c : ascii) : bool := in_range 48 57 c.

Definition is_alpha_ (c : ascii) : bool :=
  in_range 65 90 c || in_range 97 122 c || Ascii.eqb c "_".

Definition is_word (c : ascii) : bool := is_alpha_ c || is_digit c.

(** The class [[\w\.]] of the token pattern. *)
Definition is_word_or_dot (c : ascii) : bool := is_word c || Ascii.eqb c ".".

Definition newline : ascii := ascii_of_nat 10.
Definition backslash : ascii := ascii_of_nat 92.
Definition dquote : ascii := ascii_of_nat 34.
Definition squote : ascii := ascii_of_nat 39.

(** The one-character text made of a double quote *)
Definition dq : string := String dquote EmptyString.

(** ** String methods *)

(** Number of leading characters of [s] in the class [p]: what a greedy
    [p*] consumes. *)
Fixpoint span (p : ascii → bool) (s : string) : nat :=
  match s with
  | String c r => if p c then S (span p r) else 0
  | EmptyString => 0
  end.

Fixpoint drop (n : nat) (s : string) : string :=
  match n, s with
  | S k, String _ r => drop k r
  | _, _ => s
  end.

Fixpoint take (n : nat) (s : string) : string :=
  match n, s with
  | S k, String c r => String c (take k r)
  | _, _ => EmptyString
  end.

Fixpoint forallb_str (p : ascii → bool) (s : string) : bool :=
  match s with
  | String c r => p c && forallb_str p r
  | EmptyString => true
  end.

Fixpoint last_char (s : string) : option ascii :=
  match s with
  | EmptyString => None
  | String c EmptyString => Some c
  | String _ r => last_char r
  end.

Definition first_char (s : string) : option ascii :=
  match s with
  | String c _ => Some c
  | EmptyString => None
  end.

Fixpoint drop_last (s : string) : string :=
  match s with
  | EmptyString => EmptyString
  | String _ EmptyString => EmptyString
  | String c r => String c (drop_last r)
  end.

(** [s[n:-1]] *)
Definition slice_to_last (n : nat) (s : string) : string := drop_last (drop n s).

(** [s.startswith(p)] *)
Fixpoint startswith (p s : string) : bool :=
  match p with
  | EmptyString => true
  | String a p' =>
      match s with
      | String b s' => Ascii.eqb a b && startswith p' s'
      | EmptyString => false
      end
  end.

(** [s.endswith(p)] *)
Definition endswith (p s : string) : bool :=
  String.eqb (drop (String.length s - String.length p) s) p
  && (String.length p <=? String.length s)%nat.

Fixpoint rstrip (s : string) : string :=
  match s with
  | EmptyString => EmptyString
  | String c r =>
      match rstrip r with
      | EmptyString => if is_space c then EmptyString else String c EmptyString
      | r' => String c r'
      end
  end.

(** [s.strip()] *)
Definition strip (s : string) : string := rstrip (drop (span is_space s) s).

Definition lower_char (c : ascii) : ascii :=
  if in_range 65 90 c then ascii_of_N (code c + 32) else c.

(** [s.lower()] *)
Fixpoint lower (s : string) : string :=
  match s with
  | EmptyString => EmptyString
  | String c r => String (lower_char c) (lower r)
  end.

(** What [$] accepts without the MULTILINE flag: the end of the text, or
    the position of a newline that ends the text. *)
Definition at_end (s : string) : bool :=
  match s with
  | EmptyString => true
  | String c EmptyString => Ascii.eqb c newline
  | _ => false
  end.

(** ** Dictionaries written as literals *)

Fixpoint dict_get {V} (d : list (string * V)) (k : string) : option V :=
  match d with
  | [] => None
  | (k', v) :: d' => if String.eqb k k' then Some v else dict_get d' k
  end.

(** [k in s] for a set literal *)
Definition set_mem (k : string) (s : list string) : bool :=
  existsb (String.eqb k) s.

(** ** Host functions and values

    [float], the [unicode_escape] codec and [datetime.fromisoformat] are
    called by the repository and defined by the host; [None] stands for
    the exception they raise ([ValueError], [UnicodeDecodeError],
    [ValueError]).  The five floats are the constants of the [math]
    module that the builtin catalog exports. *)

Record Host : Type := {
  pyfloat : Type;
  pydatetime : Type;
  pyobject : Type;
  float_of_str : string → option pyfloat;
  unicode_escape : string → option string;
  fromisoformat : string → option pydatetime;
  math_pi : pyfloat;
  math_e : pyfloat;
  math_inf : pyfloat;
  math_tau : pyfloat;
  math_nan : pyfloat
}.

(** Runtime values.  [VCallable q] is the function bound to the name [q]
    in the evaluator module ([min], [math.log], [operator.add],
    [builtin_mean], ...); [VObj] is any other host object a caller may
    put in an environment, callable or not. *)
Inductive Value (H : Host) : Type :=
| VFloat (x : pyfloat H)
| VInt (n : Z)
| VBool (b : bool)
| VStr (s : string)
| VDate (d : pydatetime H)
| VList (l : list (Value H))
| VCallable (qualname : string)
| VObj (o : pyobject H).
Arguments VFloat {H} x.
Arguments VInt {H} n.
Arguments VBool {H} b.
Arguments VStr {H} s.
Arguments VDate {H} d.
Arguments VList {H} l.
Arguments VCallable {H} qualname.
Arguments VObj {H} o.

(** What the evaluator needs from the running interpreter: the truth
    value of an object and the effect of calling one.  A call may change
    the state of the world (the builtin [list.append] mutates its
    argument), so it is a state transformer. *)
Record Runtime (H : Host) : Type := {
  world : Type;
  truth : Value H → bool;
  call : Value H → list (Value H) → world → result (Value H) * world
}.
Arguments world {H} r.
Arguments truth {H} r v.
Arguments call {H} r f args w.

End Py.

Import Py.

(* ===================================================================== *)
(** * Postfix entries and tree nodes *)
(* ===================================================================== *)

Module Ast.
Section Ast.
Context {H : Host}.

(** What [shunting_yard] keeps on its operator stack and appends to its
    output queue: the raw strings ["("] and ["["], or a dictionary with a
    ["type"].  A function marker has its ["args"] count only once its
    parenthesis is closed. *)
Inductive entry : Type :=
| E_raw (s : string)
| E_lit (value : Value H)
| E_lit_str (value : Value H)
| E_lit_date (value : Value H)
| E_id (value : string)
| E_fun (name : string) (args : option nat)
| E_list (elements : nat)
| E_bin_op (name : string)
| E_unary_op (name : string).

(** The dictionaries [evaluate] walks.  [build_tree] replaces the count
    stored under ["args"] (["elements"]) by the list of children. *)
Inductive Node : Type :=
| Lit (value : Value H)
| LitStr (value : Value H)
| LitDate (value : Value H)
| Id (value : string)
| UnaryOp (name : string) (args : list Node)
| BinOp (name : string) (args : list Node)
| Fun (name : string) (args : list Node)
| ListLiteral (elements : list Node)
| Other (type : string).

End Ast.
Arguments entry H : clear implicits.
Arguments Node H : clear implicits.
End Ast.

Import Ast.

(* ===================================================================== *)
(** * service/term_parser.py *)
(* ===================================================================== *)

Module term_parser.

(** ** [token_regex]

    The pattern is [\s*(A1|A2|...|A25)\s*] with one capturing group.  The
    alternatives are tried in the order they are written and, as only
    [\s*] follows the group, the first way an alternative matches is the
    one kept.  Each function below gives, for one alternative, the length
    of its match at the head of [s], if any. *)

(** A literal alternative: [=>], [//], [\*\*], ... *)
Definition lit_alt (t s : string) : option nat :=
  if startswith t s then Some (String.length t) else None.

(** [\|{1,2}] *)
Definition pipes_alt (s : string) : option nat :=
  match s with
  | String "|" (String "|" _) => Some 2
  | String "|" _ => Some 1
  | _ => None
  end.

(** [(?:\\.|[^q\\])*q] after an opening quote [q]: a backslash takes the
    next character with it unless that is a newline ([.] does not match
    it); any other character than [q] is taken alone.  The two branches
    start with different characters, so no shorter repetition can end on
    a [q] that the longest one skipped. *)
Fixpoint quoted_body (q : ascii) (s : string) : option nat :=
  match s with
  | EmptyString => None
  | String c r =>
      if Ascii.eqb c q then Some 1
      else if Ascii.eqb c backslash then
        match r with
        | EmptyString => None
        | String e r' =>
            if Ascii.eqb e newline then None
            else option_map (fun n => S (S n)) (quoted_body q r')
        end
      else option_map S (quoted_body q r)
  end.

(** [d"..."] and [d'...'] *)
Definition date_alt (q : ascii) (s : string) : option nat :=
  match s with
  | String "d" (String c r) =>
      if Ascii.eqb c q then option_map (fun n => S (S n)) (quoted_body q r)
      else None
  | _ => None
  end.

(** ["..."] and ['...'] *)
Definition string_alt (q : ascii) (s : string) : option nat :=
  match s with
  | String c r =>
      if Ascii.eqb c q then option_map S (quoted_body q r) else None
  | _ => None
  end.

(** [\d+]: the digits are taken greedily; giving one back leaves a digit
    in front, which none of the continuations used here ([\.], [\b], the
    end of the alternative) accepts or needs. *)
Definition digits1 (s : string) : option nat :=
  match span is_digit s with
  | 0 => None
  | n => Some n
  end.

(** [\.\d+] *)
Definition dot_digits (s : string) : option nat :=
  match s with
  | String "." r => option_map S (digits1 r)
  | _ => None
  end.

(** [\b] after a word character: the next character is not one. *)
Definition boundary_after_word (s : string) : bool :=
  match s with
  | String c _ => negb (is_word c)
  | EmptyString => true
  end.

(** [-\d*\.\d+] *)
Definition neg_decimal_alt (s : string) : option nat :=
  match s with
  | String "-" r =>
      let n := span is_digit r in
      option_map (fun m => S (n + m)) (dot_digits (drop n r))
  | _ => None
  end.

(** [-\.\d+] *)
Definition neg_dot_alt (s : string) : option nat :=
  match s with
  | String "-" r => option_map S (dot_digits r)
  | _ => None
  end.

(** [\d+\b] *)
Definition int_alt (s : string) : option nat :=
  match digits1 s with
  | Some n => if boundary_after_word (drop n s) then Some n else None
  | None => None
  end.

(** [-\d+\b] *)
Definition neg_int_alt (s : string) : option nat :=
  match s with
  | String "-" r => option_map S (int_alt r)
  | _ => None
  end.

(** [\$[\w\.]+] *)
Definition dollar_alt (s : string) : option nat :=
  match s with
  | String "$" r =>
      match span is_word_or_dot r with
      | 0 => None
      | n => Some (S n)
      end
  | _ => None
  end.

(** [[\w\.]+\b] after a first character [prev] of the run: the number of
    further characters taken.  The longest run is tried first and
    characters are given back until the end sits on a word boundary. *)
Fixpoint word_run_end (prev : ascii) (s : string) : option nat :=
  match s with
  | String c r =>
      if is_word_or_dot c then
        match word_run_end c r with
        | Some k => Some (S k)
        | None => if xorb (is_word prev) (is_word c) then Some 0 else None
        end
      else if is_word prev then Some 0 else None
  | EmptyString => if is_word prev then Some 0 else None
  end.

(** [\b[\w\.]+\b]; [prev_word] tells whether the character before the
    position is a word character. *)
Definition word_alt (prev_word : bool) (s : string) : option nat :=
  match s with
  | String c r =>
      if is_word_or_dot c && xorb prev_word (is_word c)
      then option_map S (word_run_end c r)
      else None
  | EmptyString => None
  end.

(** [\d+\.\d+] *)
Definition decimal_alt (s : string) : option nat :=
  match digits1 s with
  | Some n => option_map (fun m => n + m) (dot_digits (drop n s))
  | None => None
  end.

(** [[+\-*/%(),<>!=]] *)
Definition punct_alt (s : string) : option nat :=
  match s with
  | String c _ =>
      if existsb (Ascii.eqb c)
           ["+"; "-"; "*"; "/"; "%"; "("; ")"; ","; "<"; ">"; "!"; "="]%char
      then Some 1 else None
  | EmptyString => None
  end.

Fixpoint first_alt (alts : list (string → option nat)) (s : string)
  : option nat :=
  match alts with
  | [] => None
  | a :: rest =>
      match a s with
      | Some n => Some n
      | None => first_alt rest s
      end
  end.

(** The capturing group. *)
Definition group_alts (prev_word : bool) : list (string → option nat) :=
  [ lit_alt "=>"; lit_alt "//"; lit_alt "**"; lit_alt "=="; lit_alt "!=";
    lit_alt "<="; lit_alt ">="; lit_alt "<<"; lit_alt ">>";
    pipes_alt; lit_alt "&"; lit_alt "^";
    date_alt dquote; date_alt squote; string_alt dquote; string_alt squote;
    neg_decimal_alt; neg_dot_alt; neg_int_alt;
    dollar_alt; word_alt prev_word;
    decimal_alt; dot_digits; int_alt; punct_alt ].

Definition group_match (prev_word : bool) (s : string) : option nat :=
  first_alt (group_alts prev_word) s.

(** One attempt of the whole pattern at a position: the lengths of the
    leading white space, of the group and of the trailing white space.
    The leading [\s*] is greedy; giving white space back would start the
    group on a white-space character, where no alternative matches
    ([group_match_space] below). *)
Definition match_at (prev_word : bool) (s : string) : option (nat * nat * nat) :=
  let lead := span is_space s in
  let s1 := drop lead s in
  let pw := match lead with 0 => prev_word | _ => false end in
  match group_match pw s1 with
  | Some n => Some (lead, n, span is_space (drop n s1))
  | None => None
  end.

(** [token_regex.split(expression)]: the text between two matches, then
    the group of the match, and so on, ending with the text after the
    last match.  The scan goes through the text once; [skip] counts the
    characters of the current match that are still to be passed and [gap]
    holds the unmatched text since the last match. *)
Fixpoint split_scan (prev_word : bool) (s : string) (skip : nat) (gap : string)
  : list string :=
  match s with
  | EmptyString => [gap]
  | String c r =>
      match skip with
      | S k => split_scan (is_word c) r k gap
      | 0 =>
          match match_at prev_word s with
          | Some (lead, n, trail) =>
              gap :: take n (drop lead s)
                  :: split_scan (is_word c) r (lead + n + trail - 1) EmptyString
          | None => split_scan (is_word c) r 0 (gap +:+ String c EmptyString)
          end
      end
  end.

Definition token_regex_split (expression : string) : list string :=
  split_scan false expression 0 EmptyString.

(** [[token for token in tokens if token.strip()]] *)
Definition tokenize (expression : string) : list string :=
  List.filter (fun token => negb (String.eqb (strip token) EmptyString))
              (token_regex_split expression).

(** ** [iso_date_regex]

    [^\d{4}-\d{2}-\d{2}(T\d{2}:\d{2}:\d{2}(.\d+)?(Z|(\+|-)\d{2}:\d{2})?)?$].
    The dot before the fraction digits is not escaped in the source and
    stands for any character but a newline. *)

(** [\d{n}]: the text after [n] digits. *)
Fixpoint digits_exact (n : nat) (s : string) : option string :=
  match n with
  | 0 => Some s
  | S k =>
      match s with
      | String c r => if is_digit c then digits_exact k r else None
      | EmptyString => None
      end
  end.

Definition expect (c : ascii) (s : string) : option string :=
  match s with
  | String c' r => if Ascii.eqb c c' then Some r else None
  | EmptyString => None
  end.

(** [(Z|(\+|-)\d{2}:\d{2})?$] *)
Definition iso_zone_end (s : string) : bool :=
  at_end s ||
  match s with
  | String "Z" r => at_end r
  | String c r =>
      (Ascii.eqb c "+" || Ascii.eqb c "-") &&
      match r1 ← digits_exact 2 r; r2 ← expect ":" r1; digits_exact 2 r2 with
      | Some r3 => at_end r3
      | None => false
      end
  | EmptyString => false
  end.

(** [(.\d+)?(Z|...)?$]: with the fraction, or else without it. *)
Definition iso_fraction_zone_end (s : string) : bool :=
  match s with
  | String c r =>
      negb (Ascii.eqb c newline) &&
      match digits1 r with
      | Some n => iso_zone_end (drop n r)
      | None => false
      end
  | EmptyString => false
  end
  || iso_zone_end s.

(** [(T\d{2}:\d{2}:\d{2}...)?$]: with the time, or else without it. *)
Definition iso_time_end (s : string) : bool :=
  match r0 ← expect "T" s; r1 ← digits_exact 2 r0; r2 ← expect ":" r1;
        r3 ← digits_exact 2 r2; r4 ← expect ":" r3; digits_exact 2 r4 with
  | Some r5 => iso_fraction_zone_end r5
  | None => false
  end
  || at_end s.

Definition iso_date_regex_match (value : string) : bool :=
  match r1 ← digits_exact 4 value; r2 ← expect "-" r1; r3 ← digits_exact 2 r2;
        r4 ← expect "-" r3; digits_exact 2 r4 with
  | Some r5 => iso_time_end r5
  | None => false
  end.

(** ** Tables *)

Definition unary_operators : list string :=
  ["not"; "neg"; "floor"; "ceil"; "abs"; "int"; "float"; "bool"].

Definition binary_operators : list string :=
  ["+"; "-"; "*"; "/"; "//"; "**"; "mod"; "%"; "<"; "<="; ">"; ">="; "==";
   "!="; "and"; "or"; "|"; "&"; "xor"; "<<"; ">>"].

Definition precedence : list (string * Z) :=
  [("or", 1); ("and", 2); ("|", 3); ("xor", 3); ("&", 3); ("==", 4);
   ("!=", 4); ("<", 5); (">", 5); ("<=", 5); (">=", 5); ("+", 6); ("-", 6);
   ("*", 7); ("/", 7); ("//", 7); ("mod", 7); ("%", 7); ("<<", 8);
   (">>", 8); ("**", 9); ("not", 10); ("neg", 6); ("floor", 10);
   ("ceil", 10); ("abs", 10); ("int", 10); ("float", 10); ("bool", 10);
   ("function", 20)]%Z.

Definition associativity : list (string * string) :=
  [("or", "L"); ("and", "L"); ("|", "L"); ("xor", "L"); ("&", "L");
   ("==", "L"); ("!=", "L"); ("<", "L"); (">", "L"); ("<=", "L");
   (">=", "L"); ("+", "L"); ("-", "L"); ("*", "L"); ("/", "L"); ("//", "L");
   ("mod", "L"); ("%", "L"); ("<<", "L"); (">>", "L"); ("**", "R");
   ("not", "R"); ("floor", "R"); ("ceil", "R"); ("abs", "R"); ("int", "R");
   ("float", "R"); ("bool", "R")].

(** [d[k]] on one of the tables *)
Definition subscript {V} (d : list (string * V)) (k : string) : result V :=
  match dict_get d k with
  | Some v => Ok v
  | None => Raise (KeyError k)
  end.

(** ** Classifier predicates *)

(** [^-?\d+(\.\d+)?$] *)
Definition is_number (token : string) : bool :=
  let s := match token with String "-" r => r | _ => token end in
  match digits1 s with
  | Some n =>
      let r := drop n s in
      match dot_digits r with
      | Some m => at_end (drop m r)
      | None => at_end r
      end
  | None => false
  end.

(** [^[a-zA-Z_][\w\.]*$] *)
Definition is_identifier (token : string) : bool :=
  match token with
  | String c r =>
      is_alpha_ c && at_end (drop (span is_word_or_dot r) r)
      && negb (startswith "$" token)
  | EmptyString => false
  end.

(** [^\$[a-zA-Z_][\w\.]*$] *)
Definition is_function (token : string) : bool :=
  match token with
  | String "$" (String c r) =>
      is_alpha_ c && at_end (drop (span is_word_or_dot r) r)
  | _ => false
  end.

Definition is_binary_operator (token : string) : bool :=
  set_mem token binary_operators.

Definition is_unary_operator (token : string) : bool :=
  set_mem token unary_operators.

(** [is_operator] on a string *)
Definition is_operator (token : string) : bool :=
  set_mem token binary_operators || set_mem token unary_operators.

Section Parser.
Context {H : Host}.

Definition unescape_string_literal (s : string) : result string :=
  match unicode_escape H s with
  | Some s' => Ok s'
  | None => Raise (UnicodeDecodeError "unicode_escape")
  end.

Definition is_iso_date_string (value : string) : bool :=
  iso_date_regex_match value.

Definition parse_iso_date_string (value : string) : result (pydatetime H) :=
  match fromisoformat H value with
  | Some d => Ok d
  | None => Raise (ValueError ("Invalid ISO date string: " +:+ value))
  end.

(** [token.get("name", None)] *)
Definition entry_name (e : entry H) : option string :=
  match e with
  | E_fun name _ | E_bin_op name | E_unary_op name => Some name
  | _ => None
  end.

(** [is_operator] on a stack entry: a string is looked up itself, a
    dictionary through its ["name"]. *)
Definition is_operator_entry (e : entry H) : bool :=
  match e with
  | E_raw s => is_operator s
  | _ =>
      match entry_name e with
      | Some name => is_operator name
      | None => false
      end
  end.

Definition string_subscript_error : exc :=
  TypeError "string indices must be integers".

(** [top = stack[-1]], then [precedence[top["name"]]] unless
    [top["type"] == "fun"].  The stack has its last entry at the head. *)
Definition get_stack_precedence (stack : list (entry H)) : result Z :=
  match stack with
  | [] => Raise (IndexError "list index out of range")
  | E_raw _ :: _ => Raise string_subscript_error
  | E_fun _ _ :: _ => subscript precedence "function"
  | (E_bin_op name | E_unary_op name) :: _ => subscript precedence name
  | _ :: _ => Raise (KeyError "name")
  end.

Definition get_precedence (token : string) : result Z :=
  subscript precedence token.

(** ** [shunting_yard]

    The four Python lists are used as stacks: each is a [list] whose head
    is the Python element of index [-1], so [append] is a cons and [pop]
    removes the head.  The queue is put back in order when returned. *)

Record state : Type := {
  output_queue : list (entry H);
  operator_stack : list (entry H);
  argument_count : list nat;
  element_count : list nat
}.

Definition initial : state :=
  {| output_queue := []; operator_stack := [];
     argument_count := []; element_count := [] |}.

Definition append_output (e : entry H) (st : state) : state :=
  {| output_queue := e :: output_queue st;
     operator_stack := operator_stack st;
     argument_count := argument_count st;
     element_count := element_count st |}.

Definition push_operator (e : entry H) (st : state) : state :=
  {| output_queue := output_queue st;
     operator_stack := e :: operator_stack st;
     argument_count := argument_count st;
     element_count := element_count st |}.

(** [e == t] for a raw string [t] *)
Definition is_raw (t : string) (e : entry H) : bool :=
  match e with
  | E_raw s => String.eqb s t
  | _ => false
  end.

(** [while operator_stack and go(operator_stack[-1]):
       output_queue.append(operator_stack.pop())] *)
Fixpoint unroll (go : entry H → bool) (ops out : list (entry H))
  : list (entry H) * list (entry H) :=
  match ops with
  | top :: rest => if go top then unroll go rest (top :: out) else (ops, out)
  | [] => ([], out)
  end.

(** The two statements run on a separator for the count on top *)
Definition count_separator (c : nat) : nat :=
  (if Nat.eqb c 0 then c + 1 else c) + 1.

Definition bump_top (counts : list nat) : result (list nat) :=
  match counts with
  | c :: rest => Ok (count_separator c :: rest)
  | [] => Raise (IndexError "list index out of range")
  end.

(** The test of the [while] of the operator rule: the stack is not
    empty, its last entry is an operator, and the comparison of the
    precedences that the associativity of the token asks for holds. *)
Definition operator_pops (token : string) (operator_stack : list (entry H))
  : result bool :=
  match operator_stack with
  | [] => Ok false
  | top :: _ =>
      if is_operator_entry top then
        a ← subscript associativity token;
        if String.eqb a "L" then
          p ← get_precedence token;
          sp ← get_stack_precedence operator_stack;
          Ok (p <=? sp)%Z
        else if String.eqb a "R" then
          p ← get_precedence token;
          sp ← get_stack_precedence operator_stack;
          Ok (p <? sp)%Z
        else Ok false
      else Ok false
  end.

(** [while test: output_queue.append(operator_stack.pop())] *)
Fixpoint pop_operators (token : string) (ops out : list (entry H))
  : result (list (entry H) * list (entry H)) :=
  match ops with
  | [] => Ok ([], out)
  | top :: rest =>
      b ← operator_pops token ops;
      if (b : bool) then pop_operators token rest (top :: out) else Ok (ops, out)
  end.

Definition is_string_literal (token : string) : bool :=
  (startswith dq token && endswith dq token)
  || (startswith "'" token && endswith "'" token).

Definition is_date_literal (token : string) : bool :=
  (startswith (String "d" dq) token && endswith dq token)
  || (startswith "d'" token && endswith "'" token).

(** The rule of the separator [,] *)
Definition separator_rule (st : state) : result state :=
  let '(ops, out) :=
    unroll (fun e => negb (is_raw "(" e || is_raw "[" e))
           (operator_stack st) (output_queue st) in
  match ops with
  | [] => Raise (ValueError
      "Misplaced function argument separator or mismatched parentheses/brackets.")
  | top :: _ =>
      if is_raw "(" top then
        argc ← bump_top (argument_count st);
        Ok {| output_queue := out; operator_stack := ops;
              argument_count := argc; element_count := element_count st |}
      else if is_raw "[" top then
        elc ← bump_top (element_count st);
        Ok {| output_queue := out; operator_stack := ops;
              argument_count := argument_count st; element_count := elc |}
      else
        Ok {| output_queue := out; operator_stack := ops;
              argument_count := argument_count st;
              element_count := element_count st |}
  end.

(** The rule of [(]: an identifier that ends the output becomes a
    function marker unless the stack already ends with one. *)
Definition open_paren_rule (st : state) (token : string) : result state :=
  let out := output_queue st in
  let ops := operator_stack st in
  let found_fun := match ops with E_fun _ _ :: _ => true | _ => false end in
  '(out1, ops1) ←
    (if found_fun then Ok (out, ops)
     else match out with
          | [] => Ok (out, ops)
          | E_raw _ :: _ => Raise string_subscript_error
          | E_id value :: rest => Ok (rest, E_fun value None :: ops)
          | _ :: _ => Ok (out, ops)
          end);
  Ok {| output_queue := out1; operator_stack := E_raw token :: ops1;
        argument_count := 0 :: argument_count st;
        element_count := element_count st |}.

(** The rule of [)]: [operator_stack[-1]["type"]] is evaluated on
    whatever is under the parenthesis, a raw string included. *)
Definition close_paren_rule (st : state) : result state :=
  let '(ops, out) :=
    unroll (fun e => negb (is_raw "(" e)) (operator_stack st) (output_queue st) in
  match ops with
  | [] => Raise (ValueError "Mismatched parentheses when unrolling.")
  | _ :: under =>
      match under with
      | [] =>
          Ok {| output_queue := out; operator_stack := under;
                argument_count := argument_count st;
                element_count := element_count st |}
      | E_raw _ :: _ => Raise string_subscript_error
      | E_fun name _ :: rest =>
          match argument_count st with
          | [] => Raise (IndexError "pop from empty list")
          | args :: argc =>
              Ok {| output_queue := E_fun name (Some args) :: out;
                    operator_stack := rest;
                    argument_count := argc;
                    element_count := element_count st |}
          end
      | _ :: _ =>
          Ok {| output_queue := out; operator_stack := under;
                argument_count := argument_count st;
                element_count := element_count st |}
      end
  end.

(** The rule of []] *)
Definition close_bracket_rule (st : state) : result state :=
  let '(ops, out) :=
    unroll (fun e => negb (is_raw "[" e)) (operator_stack st) (output_queue st) in
  match ops with
  | [] => Raise (ValueError "Mismatched brackets when unrolling.")
  | _ :: under =>
      match element_count st with
      | [] => Raise (IndexError "pop from empty list")
      | elements :: elc =>
          Ok {| output_queue := E_list elements :: out;
                operator_stack := under;
                argument_count := argument_count st;
                element_count := elc |}
      end
  end.

(** The rule of an operator *)
Definition operator_rule (st : state) (token : string) : result state :=
  '(ops, out) ← pop_operators token (operator_stack st) (output_queue st);
  Ok {| output_queue := out;
        operator_stack :=
          (if is_binary_operator token then E_bin_op token
           else E_unary_op token) :: ops;
        argument_count := argument_count st;
        element_count := element_count st |}.

(** The body of the [for] loop: the [if]/[elif] chain. *)
Definition step (st : state) (token : string) : result state :=
  if is_number token then
    Ok (append_output
          (E_lit (match float_of_str H token with
                  | Some x => VFloat x
                  | None => VStr token
                  end)) st)
  else if is_string_literal token then
    string_value ← unescape_string_literal (slice_to_last 1 token);
    Ok (append_output (E_lit_str (VStr string_value)) st)
  else if is_date_literal token then
    string_value ← unescape_string_literal (slice_to_last 2 token);
    if is_iso_date_string string_value then
      d ← parse_iso_date_string string_value;
      Ok (append_output (E_lit_date (VDate d)) st)
    else Ok st
  else if is_identifier token && negb (is_function token || is_operator token) then
    Ok (append_output (E_id token) st)
  else if is_function token then
    Ok (push_operator (E_fun token None) st)
  else if String.eqb token "," then separator_rule st
  else if String.eqb token "(" then open_paren_rule st token
  else if String.eqb token "[" then
    Ok {| output_queue := output_queue st;
          operator_stack := E_raw token :: operator_stack st;
          argument_count := argument_count st;
          element_count := 0 :: element_count st |}
  else if String.eqb token ")" then close_paren_rule st
  else if String.eqb token "]" then close_bracket_rule st
  else if is_operator token then operator_rule st token
  else Raise (ValueError ("Unknown token: " +:+ token)).

Fixpoint run (tokens : list string) (st : state) : result state :=
  match tokens with
  | [] => Ok st
  | token :: rest => st' ← step st token; run rest st'
  end.

(** The [while operator_stack] that follows the loop. *)
Fixpoint drain (ops out : list (entry H)) : result (list (entry H)) :=
  match ops with
  | [] => Ok out
  | top :: rest =>
      if is_raw "(" top then Raise (ValueError "Mismatched parentheses.")
      else if is_raw "[" top then Raise (ValueError "Mismatched brackets.")
      else drain rest (top :: out)
  end.

Definition shunting_yard (tokens : list string) : result (list (entry H)) :=
  st ← run tokens initial;
  out ← drain (operator_stack st) (output_queue st);
  Ok (rev out).

(** ** [check_parentheses_balance] *)

Fixpoint balance_loop (tokens : list string) (balance : Z) : result Z :=
  match tokens with
  | [] => Ok balance
  | token :: rest =>
      let balance' :=
        if String.eqb token "(" then (balance + 1)%Z
        else if String.eqb token ")" then (balance - 1)%Z
        else balance in
      if (balance' <? 0)%Z then
        Raise (ValueError "Unbalanced parentheses: too many closing parentheses")
      else balance_loop rest balance'
  end.

Definition check_parentheses_balance (tokens : list string) : result unit :=
  balance ← balance_loop tokens 0%Z;
  if (0 <? balance)%Z then
    Raise (ValueError
      ("Unbalanced parentheses: missing closing parenthesis - " +:+ pretty balance))
  else Ok tt.

(** ** [parse_to_tree] and its inner [build_tree] *)

Definition pop (stack : list (Node H)) : result (Node H * list (Node H)) :=
  match stack with
  | x :: rest => Ok (x, rest)
  | [] => Raise (IndexError "pop from empty list")
  end.

(** [[stack.pop() for _ in range(n)]]: the nodes in the order they are
    popped, and the stack that is left. *)
Fixpoint pop_n (n : nat) (stack : list (Node H))
  : result (list (Node H) * list (Node H)) :=
  match n with
  | 0 => Ok ([], stack)
  | S k =>
      '(x, stack1) ← pop stack;
      '(xs, stack2) ← pop_n k stack1;
      Ok (x :: xs, stack2)
  end.

(** The body of the [for] loop of [build_tree].  The test
    [not left or not right] of the binary case is on two dictionaries
    that have a ["type"], which are never empty: it never holds. *)
Definition build_step (stack : list (Node H)) (token : entry H)
  : result (list (Node H)) :=
  match token with
  | E_raw _ => Raise string_subscript_error
  | E_lit v => Ok (Lit v :: stack)
  | E_lit_str v => Ok (LitStr v :: stack)
  | E_lit_date v => Ok (LitDate v :: stack)
  | E_id v => Ok (Id v :: stack)
  | E_unary_op name =>
      '(x, stack1) ← pop stack;
      Ok (UnaryOp name [x] :: stack1)
  | E_bin_op name =>
      '(right_node, stack1) ← pop stack;
      '(left_node, stack2) ← pop stack1;
      Ok (BinOp name [left_node; right_node] :: stack2)
  | E_fun name None => Raise (KeyError "args")
  | E_fun name (Some n) =>
      '(args, stack1) ← pop_n n stack;
      Ok (Fun name (rev args) :: stack1)
  | E_list n =>
      '(elements, stack1) ← pop_n n stack;
      Ok (ListLiteral (rev elements) :: stack1)
  end.

Fixpoint build_loop (rpn_queue : list (entry H)) (stack : list (Node H))
  : result (list (Node H)) :=
  match rpn_queue with
  | [] => Ok stack
  | token :: rest => stack' ← build_step stack token; build_loop rest stack'
  end.

Definition malformed : exc :=
  ValueError
    "Syntax Error: The user might have not closed a parenthesis or the expression is malformed.".

Definition build_tree (rpn_queue : list (entry H)) : result (Node H) :=
  stack ← build_loop rpn_queue [];
  match stack with
  | [root] => Ok root
  | _ => Raise malformed
  end.

Definition parse_to_tree (expression : string) : result (Node H) :=
  let tokens := tokenize expression in
  balanced ← check_parentheses_balance tokens;
  rpn ← shunting_yard tokens;
  build_tree rpn.

End Parser.
Arguments state H : clear implicits.

End term_parser.

Import term_parser.

(* ===================================================================== *)
(** * service/term_interpreter.py *)
(* ===================================================================== *)

Module term_interpreter.

(** What an operator name is bound to: a function of the host, named as
    the source names it, or one of the two lambdas written in the table. *)
Inductive callee : Type :=
| host (qualname : string)
| lambda_and
| lambda_or.

Definition unary_operators : list (string * string) :=
  [("not", "operator.not_"); ("inv", "operator.inv"); ("~", "operator.inv");
   ("neg", "operator.neg"); ("floor", "math.floor"); ("trunc", "math.trunc");
   ("ceil", "math.ceil"); ("isinf", "math.isinf"); ("isnan", "math.isnan");
   ("isfinite", "math.isfinite"); ("abs", "operator.abs"); ("int", "int");
   ("str", "str"); ("float", "float"); ("bool", "bool")].

Definition binary_operators : list (string * callee) :=
  [("+", host "operator.add"); ("-", host "operator.sub");
   ("*", host "operator.mul"); ("/", host "operator.truediv");
   ("//", host "operator.floordiv"); ("**", host "operator.pow");
   ("pow", host "operator.pow"); ("mod", host "operator.mod");
   ("%", host "operator.mod"); ("<", host "operator.lt");
   ("<=", host "operator.le"); (">", host "operator.gt");
   (">=", host "operator.ge"); ("==", host "operator.eq");
   ("!=", host "operator.ne"); ("and", lambda_and); ("or", lambda_or);
   ("|", host "operator.or_"); ("&", host "operator.and_");
   ("xor", host "operator.xor"); ("<<", host "operator.lshift");
   (">>", host "operator.rshift")].

Section Evaluator.
Context {H : Host}.

(** The catalog.  The functions defined in the module ([builtin_mean],
    [add_days], ...) are entered under their Python names; what calling
    them does is left to the runtime. *)
Definition builtin_items : list (string * Value H) :=
  [ ("min", VCallable "min"); ("max", VCallable "max");
    ("log", VCallable "math.log"); ("log1p", VCallable "math.log1p");
    ("log2", VCallable "math.log2"); ("log10", VCallable "math.log10");
    ("exp", VCallable "math.exp"); ("fsum", VCallable "math.fsum");
    ("gcd", VCallable "math.gcd"); ("sqrt", VCallable "math.sqrt");
    ("isqrt", VCallable "math.isqrt"); ("cos", VCallable "math.cos");
    ("sin", VCallable "math.sin"); ("tan", VCallable "math.tan");
    ("acos", VCallable "math.acos"); ("asin", VCallable "math.asin");
    ("atan", VCallable "math.atan"); ("degrees", VCallable "math.degrees");
    ("radians", VCallable "math.radians"); ("mean", VCallable "builtin_mean");
    ("fmean", VCallable "builtin_fmean");
    ("geometric_mean", VCallable "builtin_geometric_mean");
    ("median", VCallable "builtin_median"); ("stdev", VCallable "builtin_stdev");
    ("variance", VCallable "builtin_variance");
    ("pi", VFloat (math_pi H)); ("e", VFloat (math_e H));
    ("inf", VFloat (math_inf H)); ("tau", VFloat (math_tau H));
    ("nan", VFloat (math_nan H));
    ("str.concat", VCallable "builtin_concat");
    ("str.length", VCallable "builtin_length");
    ("str.substring", VCallable "builtin_substring");
    ("str.replace", VCallable "builtin_replace");
    ("str.toUpper", VCallable "builtin_to_upper");
    ("str.toLower", VCallable "builtin_to_lower");
    ("str.trim", VCallable "builtin_trim");
    ("str.split", VCallable "builtin_split");
    ("str.indexOf", VCallable "builtin_index_of");
    ("str.contains", VCallable "builtin_contains");
    ("str.startsWith", VCallable "builtin_starts_with");
    ("str.endsWith", VCallable "builtin_ends_with");
    ("str.regexMatch", VCallable "builtin_regex_match");
    ("str.format", VCallable "builtin_format");
    ("date.parse", VCallable "parse_iso_date");
    ("date.format", VCallable "format_date");
    ("date.addDays", VCallable "add_days");
    ("date.addHours", VCallable "add_hours");
    ("date.addMinutes", VCallable "add_minutes");
    ("date.addSeconds", VCallable "add_seconds");
    ("date.dayOfWeek", VCallable "day_of_week");
    ("date.dayOfMonth", VCallable "day_of_month");
    ("date.dayOfYear", VCallable "day_of_year");
    ("date.month", VCallable "month_of_year");
    ("date.year", VCallable "year_of_date");
    ("date.week", VCallable "week_of_year");
    ("list.length", VCallable "len");
    ("list.append", VCallable "append_to_list");
    ("list.concat", VCallable "concat_lists");
    ("list.get", VCallable "list_get");
    ("list.put", VCallable "list_put");
    ("list.slice", VCallable "slice_list");
    ("list.map", VCallable "list_map");
    ("list.filter", VCallable "list_filter");
    ("apply", VCallable "apply_function") ].

Definition builtin_env : gmap string (Value H) := list_to_map builtin_items.

(** [{**builtin_env, **env}]: the bindings of [env] win. *)
Definition join (env : gmap string (Value H)) : gmap string (Value H) :=
  env ∪ builtin_env.

Context (R : Runtime H).

(** A computation of the evaluator: it reads and changes the state of the
    world and returns a value or raises. *)
Definition eval (A : Type) : Type := world R → result A * world R.

Definition ret {A} (a : A) : eval A := fun w => (Ok a, w).
Definition raise {A} (e : exc) : eval A := fun w => (Raise e, w).

Definition and_then {A B} (m : eval A) (k : A → eval B) : eval B :=
  fun w =>
    match m w with
    | (Ok a, w') => k a w'
    | (Raise e, w') => (Raise e, w')
    end.

#[local] Instance eval_bind : MBind eval := λ A B k m, and_then m k.
#[local] Instance eval_ret : MRet eval := λ A a, ret a.

(** A list comprehension: the elements are evaluated from left to right. *)
Definition comprehension {A B} (f : A → eval B) : list A → eval (list B) :=
  fix go (l : list A) : eval (list B) :=
    match l with
    | [] => ret []
    | x :: xs => v ← f x; vs ← go xs; ret (v :: vs)
    end.

Definition index_error {A} : eval A :=
  raise (IndexError "list index out of range").

Definition call_binary (f : callee) (a b : Value H) : eval (Value H) :=
  match f with
  | host q => call R (VCallable q) [a; b]
  | lambda_and => ret (if truth R a then b else a)
  | lambda_or => ret (if truth R a then a else b)
  end.

Definition is_quote (c : ascii) : bool :=
  Ascii.eqb c dquote || Ascii.eqb c squote.

(** The ["lit"] case on a value that is a string. *)
Definition literal_of_string (s : string) : eval (Value H) :=
  if String.eqb (lower s) "true" then ret (VInt 1)
  else if String.eqb (lower s) "false" then ret (VInt 0)
  else
    match first_char s, last_char s with
    | Some a, Some b =>
        if is_quote a && is_quote b then ret (VStr (slice_to_last 1 s))
        else
          match float_of_str H s with
          | Some x => ret (VFloat x)
          | None => raise (ValueError "could not convert string to float")
          end
    | _, _ => raise (IndexError "string index out of range")
    end.

Fixpoint evaluate (ast : Node H) (env : gmap string (Value H))
    (join_builtin : bool) {struct ast} : eval (Value H) :=
  let env := if join_builtin then join env else env in
  match ast with
  | BinOp name args =>
      match args with
      | [] => index_error
      | l :: rest =>
          left_val ← evaluate l env false;
          match rest with
          | [] => index_error
          | r :: _ =>
              right_val ← evaluate r env false;
              match dict_get binary_operators name with
              | Some f => call_binary f left_val right_val
              | None => raise (KeyError name)
              end
          end
      end
  | UnaryOp name args =>
      match args with
      | [] => index_error
      | x :: _ =>
          val ← evaluate x env false;
          match dict_get unary_operators name with
          | Some q => call R (VCallable q) [val]
          | None => raise (KeyError name)
          end
      end
  | Fun name args =>
      vals ← comprehension (fun arg => evaluate arg env false) args;
      match env !! name with
      | Some f => call R f vals
      | None => raise (KeyError name)
      end
  | ListLiteral elements =>
      vals ← comprehension (fun element => evaluate element env false) elements;
      ret (VList vals)
  | Lit value =>
      match value with
      | VStr s => literal_of_string s
      | _ => ret value
      end
  | LitStr value =>
      match value with
      | VStr _ => ret value
      | _ => raise (ValueError "Not a valid string literal")
      end
  | LitDate value => ret value
  | Id identifier =>
      match env !! identifier with
      | Some v => ret v
      | None => raise (NameError ("Undefined identifier: " +:+ identifier))
      end
  | Other type => raise (ValueError ("Unknown AST node type: " +:+ type))
  end.

End Evaluator.

End term_interpreter.

Import term_interpreter.

(* ===================================================================== *)
(** * An executable host *)
(* ===================================================================== *)

(** The properties below are proved for every [Host] and [Runtime].  The
    closed examples need a host that computes: floats are binary64, the
    three host functions follow CPython 3.11 on the texts described with
    each of them, and the runtime knows the arithmetic and the
    comparisons of numbers. *)

Module CPython.

Definition digit_val (c : ascii) : Z := (Z.of_N (code c) - 48)%Z.

(** Value of the decimal digits of [s], after [acc]. *)
Fixpoint decimal (acc : Z) (s : string) : Z :=
  match s with
  | String c r => decimal (10 * acc + digit_val c)%Z r
  | EmptyString => acc
  end.

(** The binary64 nearest to [(-1)^neg * m * 10^e], ties to even. *)
Definition decimal_to_float (neg : bool) (m e : Z) : float :=
  match m with
  | Z0 => if neg then (-0)%float else 0%float
  | Zpos p =>
      if (0 <=? e)%Z then
        SF2Prim (binary_normalize prec emax
                   ((if neg then -1 else 1) * (m * 10 ^ e))%Z 0 false)
      else
        SF2Prim (SFdiv prec emax (S754_finite neg p 0)
                   (S754_finite false (Z.to_pos (10 ^ (- e))) 0))
  | Zneg _ => nan
  end.

Definition split_sign (s : string) : bool * string :=
  match s with
  | String "-" r => (true, r)
  | String "+" r => (false, r)
  | _ => (false, s)
  end.

(** The exponent part: empty, or [e] or [E], a sign and digits. *)
Definition exponent (s : string) : option Z :=
  match s with
  | EmptyString => Some 0%Z
  | String c r =>
      if Ascii.eqb c "e" || Ascii.eqb c "E" then
        let '(neg, ds) := split_sign r in
        match ds with
        | EmptyString => None
        | _ =>
            if forallb_str is_digit ds
            then Some (if neg then - decimal 0 ds else decimal 0 ds)%Z
            else None
        end
      else None
  end.

(** [float(s)] for the texts without digit-group underscores: white
    space around, a sign, then [inf], [infinity], [nan] in any case or a
    decimal number with an optional fraction and exponent. *)
Definition float_of_str (s : string) : option float :=
  let '(neg, body) := split_sign (strip s) in
  let low := lower body in
  if String.eqb low "inf" || String.eqb low "infinity" then
    Some (if neg then neg_infinity else infinity)
  else if String.eqb low "nan" then Some nan
  else
    let n1 := span is_digit body in
    let int_part := take n1 body in
    let after_int := drop n1 body in
    let '(frac_part, rest) :=
      match after_int with
      | String "." r => let n2 := span is_digit r in (take n2 r, drop n2 r)
      | _ => (EmptyString, after_int)
      end in
    match (int_part +:+ frac_part)%string with
    | EmptyString => None
    | ds =>
        match exponent rest with
        | Some e =>
            Some (decimal_to_float neg (decimal 0 ds)
                    (e - Z.of_nat (String.length frac_part)))
        | None => None
        end
    end.

Definition hex_val (c : ascii) : option N :=
  if is_digit c then Some (code c - 48)%N
  else if in_range 97 102 c then Some (code c - 87)%N
  else if in_range 65 70 c then Some (code c - 55)%N
  else None.

Definition oct_val (c : ascii) : option N :=
  if in_range 48 55 c then Some (code c - 48)%N else None.

Definition byte_char (n : N) : option ascii :=
  if (n <? 256)%N then Some (ascii_of_N n) else None.

Definition simple_escape (c : ascii) : option ascii :=
  dict_get
    [("\", backslash); ("'", squote); (dq, dquote); ("a", ascii_of_nat 7);
     ("b", ascii_of_nat 8); ("f", ascii_of_nat 12); ("n", ascii_of_nat 10);
     ("r", ascii_of_nat 13); ("t", ascii_of_nat 9); ("v", ascii_of_nat 11)]
    (String c EmptyString).

(** [s.encode().decode("unicode_escape")] on ASCII text whose escapes
    denote code points below 256: the one-letter escapes, a backslash
    before a newline, one to three octal digits, [\x] and two hexadecimal
    digits; an unknown escape is kept as it is written.  [\u], [\U] and
    [\N] denote characters that a string of bytes cannot hold and are
    answered with [None] here. *)
Fixpoint unicode_escape (s : string) : option string :=
  match s with
  | EmptyString => Some EmptyString
  | String c r =>
      if negb (Ascii.eqb c backslash) then option_map (String c) (unicode_escape r)
      else
        match r with
        | EmptyString => None
        | String e r1 =>
            if Ascii.eqb e newline then unicode_escape r1
            else
              match simple_escape e, oct_val e with
              | Some x, _ => option_map (String x) (unicode_escape r1)
              | None, Some d1 =>
                  match r1 with
                  | String e2 r2 =>
                      match oct_val e2 with
                      | Some d2 =>
                          match r2 with
                          | String e3 r3 =>
                              match oct_val e3 with
                              | Some d3 =>
                                  x ← byte_char (64 * d1 + 8 * d2 + d3);
                                  option_map (String x) (unicode_escape r3)
                              | None =>
                                  option_map (String (ascii_of_N (8 * d1 + d2)))
                                             (unicode_escape r2)
                              end
                          | EmptyString =>
                              Some (String (ascii_of_N (8 * d1 + d2)) EmptyString)
                          end
                      | None =>
                          option_map (String (ascii_of_N d1)) (unicode_escape r1)
                      end
                  | EmptyString => Some (String (ascii_of_N d1) EmptyString)
                  end
              | None, None =>
                  if Ascii.eqb e "x" then
                    match r1 with
                    | String h1 (String h2 r3) =>
                        d1 ← hex_val h1; d2 ← hex_val h2;
                        option_map (String (ascii_of_N (16 * d1 + d2)))
                                   (unicode_escape r3)
                    | _ => None
                    end
                  else if Ascii.eqb e "u" || Ascii.eqb e "U" || Ascii.eqb e "N"
                  then None
                  else option_map (fun t => String c (String e t))
                                  (unicode_escape r1)
              end
        end
  end.

Record datetime : Type := {
  year : Z; month : Z; day : Z;
  hour : Z; minute : Z; second : Z; microsecond : Z;
  utcoffset : option Z
}.

Definition is_leap (y : Z) : bool :=
  ((y mod 4 =? 0) && negb (y mod 100 =? 0) || (y mod 400 =? 0))%Z.

Definition days_in_month (y m : Z) : Z :=
  if (m =? 2)%Z then (if is_leap y then 29 else 28)%Z
  else if ((m =? 4) || (m =? 6) || (m =? 9) || (m =? 11))%Z then 30%Z
  else 31%Z.

(** [n] digits as a number, and the text after them *)
Definition number (n : nat) (s : string) : option (Z * string) :=
  match digits_exact n s with
  | Some r => Some (decimal 0 (take n s), r)
  | None => None
  end.

(** The digits of a fraction of a second as microseconds: six digits are
    kept, fewer are padded with zeros. *)
Definition microseconds (ds : string) : Z :=
  decimal 0 (take 6 (ds +:+ "000000")).

(** The zone of a time: nothing, [Z], or a sign and [HH:MM] less than a
    day away from UTC. *)
Definition zone (s : string) : option (option Z) :=
  match s with
  | EmptyString => Some None
  | String "Z" EmptyString => Some (Some 0%Z)
  | String c r =>
      if Ascii.eqb c "+" || Ascii.eqb c "-" then
        '(h, r1) ← number 2 r;
        r2 ← expect ":" r1;
        '(m, r3) ← number 2 r2;
        let off := (h * 3600 + m * 60)%Z in
        match r3 with
        | EmptyString =>
            if (off <? 86400)%Z
            then Some (Some (if Ascii.eqb c "-" then - off else off)%Z)
            else None
        | _ => None
        end
      else None
  end.

(** [datetime.fromisoformat] on the texts that [iso_date_regex] accepts:
    [YYYY-MM-DD], then possibly [T], [HH:MM:SS], a fraction introduced by
    a dot or a comma, and a zone.  The year, the month, the day and the
    time of day have to exist. *)
Definition fromisoformat (value : string) : option datetime :=
  '(y, r1) ← number 4 value;
  r2 ← expect "-" r1;
  '(m, r3) ← number 2 r2;
  r4 ← expect "-" r3;
  '(d, r5) ← number 2 r4;
  if negb ((1 <=? y) && (1 <=? m) && (m <=? 12) && (1 <=? d)
           && (d <=? days_in_month y m))%Z
  then None
  else
    match r5 with
    | EmptyString =>
        Some {| year := y; month := m; day := d; hour := 0; minute := 0;
                second := 0; microsecond := 0; utcoffset := None |}
    | _ =>
        r6 ← expect "T" r5;
        '(hh, r7) ← number 2 r6;
        r8 ← expect ":" r7;
        '(mm, r9) ← number 2 r8;
        r10 ← expect ":" r9;
        '(ss, r11) ← number 2 r10;
        if negb ((hh <? 24) && (mm <? 60) && (ss <? 60))%Z then None
        else
          '(us, r12) ←
            match r11 with
            | String c r =>
                if Ascii.eqb c "." || Ascii.eqb c "," then
                  match span is_digit r with
                  | 0 => None
                  | n => Some (microseconds (take n r), drop n r)
                  end
                else Some (0%Z, r11)
            | EmptyString => Some (0%Z, r11)
            end;
          tz ← zone r12;
          Some {| year := y; month := m; day := d; hour := hh; minute := mm;
                  second := ss; microsecond := us; utcoffset := tz |}
    end.

Definition Host : Py.Host := {|
  pyfloat := float;
  pydatetime := datetime;
  pyobject := Empty_set;
  Py.float_of_str := float_of_str;
  Py.unicode_escape := unicode_escape;
  Py.fromisoformat := fromisoformat;
  math_pi := 0x1.921fb54442d18p+1%float;
  math_e := 0x1.5bf0a8b145769p+1%float;
  math_inf := infinity;
  math_tau := 0x1.921fb54442d18p+2%float;
  math_nan := nan
|}.

(** ** The runtime *)

Definition Val : Type := Value Host.

(** [bool(v)] *)
Definition truth (v : Val) : bool :=
  match v with
  | VFloat x => negb (PrimFloat.eqb x 0)
  | VInt n => negb (n =? 0)%Z
  | VBool b => b
  | VStr s => negb (String.eqb s EmptyString)
  | VDate _ => true
  | VList l => match l with [] => false | _ => true end
  | VCallable _ => true
  | VObj o => match o with end
  end.

(** A number as a float, the way mixed arithmetic converts it; exact for
    the integers below 2^53. *)
Definition float_of_Z (n : Z) : float :=
  SF2Prim (binary_normalize prec emax n 0 false).

Definition as_float (v : Val) : option float :=
  match v with
  | VFloat x => Some x
  | VInt n => Some (float_of_Z n)
  | VBool b => Some (if b then 1%float else 0%float)
  | _ => None
  end.

(** The integer a float is equal to, if any *)
Definition integral (x : float) : option Z :=
  match Prim2SF x with
  | S754_zero _ => Some 0%Z
  | S754_finite s m e =>
      let v := if (0 <=? e)%Z then (Z.pos m * 2 ^ e)%Z
               else (Z.pos m / 2 ^ (- e))%Z in
      if (0 <=? e)%Z || (Z.pos m mod 2 ^ (- e) =? 0)%Z
      then Some (if s then - v else v)%Z else None
  | _ => None
  end.

(** [x ** n] for a natural number [n], by repeated multiplication: the
    value of the host when every product is exact. *)
Definition float_pow_nat (x : float) (n : nat) : float :=
  Nat.iter n (fun acc => PrimFloat.mul acc x) 1%float.

Definition vfloat (x : float) : Val := @VFloat Host x.
Definition vdate (d : datetime) : Val := @VDate Host d.

(** [datetime(y, m, d)] *)
Definition midnight (y m d : Z) : datetime :=
  {| year := y; month := m; day := d; hour := 0; minute := 0; second := 0;
     microsecond := 0; utcoffset := None |}.

Definition not_modelled {A} (what : string) : result A :=
  Raise (OtherException "NotModelled" what).

(** The operators on two floats.  What the instance does not compute (a
    power with a fractional or negative exponent, the bit operators, the
    operators on strings, lists and dates, the catalog) is answered with
    [NotModelled], which is not an exception of the host. *)
Definition float_binary (q : string) (a b : float) : result Val :=
  if String.eqb q "operator.add" then Ok (vfloat (a + b)%float)
  else if String.eqb q "operator.sub" then Ok (vfloat (a - b)%float)
  else if String.eqb q "operator.mul" then Ok (vfloat (a * b)%float)
  else if String.eqb q "operator.truediv" then
    if PrimFloat.eqb b 0 then Raise (ZeroDivisionError "float division by zero")
    else Ok (vfloat (a / b)%float)
  else if String.eqb q "operator.pow" then
    match integral b with
    | Some (Zpos p) => Ok (vfloat (float_pow_nat a (Pos.to_nat p)))
    | Some Z0 => Ok (vfloat 1%float)
    | _ => not_modelled q
    end
  else if String.eqb q "operator.lt" then Ok (VBool (PrimFloat.ltb a b))
  else if String.eqb q "operator.le" then Ok (VBool (PrimFloat.leb a b))
  else if String.eqb q "operator.gt" then Ok (VBool (PrimFloat.ltb b a))
  else if String.eqb q "operator.ge" then Ok (VBool (PrimFloat.leb b a))
  else if String.eqb q "operator.eq" then Ok (VBool (PrimFloat.eqb a b))
  else if String.eqb q "operator.ne" then Ok (VBool (negb (PrimFloat.eqb a b)))
  else not_modelled q.

Definition call (f : Val) (args : list Val) (w : unit) : result Val * unit :=
  match f, args with
  | VCallable q, [VFloat a; VFloat b] => (float_binary q a b, w)
  | VCallable q, _ => (not_modelled q, w)
  | _, _ => (Raise (TypeError "object is not callable"), w)
  end.

Definition Runtime : Py.Runtime Host :=
  {| world := unit; Py.truth := truth; Py.call := call |}.

Definition parse (expression : string) : result (Node Host) :=
  parse_to_tree expression.

Definition eval_text (expression : string) : result Val :=
  match parse expression with
  | Ok ast => fst (evaluate Runtime ast ∅ true tt)
  | Raise e => Raise e
  end.

End CPython.

(* ===================================================================== *)
(** * Vocabulary of the properties *)
(* ===================================================================== *)

Module Spec.

(** The names a table binds, in the order they are written. *)
Definition names_of {V} (d : list (string * V)) : list string := map fst d.

Section Spec.
Context {H : Host}.

(** The value the converter gives a numeric token. *)
Definition number_of (token : string) : Value H :=
  match float_of_str H token with
  | Some x => VFloat x
  | None => VStr token
  end.

(** The postfix sequence of a tree: the children from left to right,
    then the marker of the node.  The marker of a call carries the number
    of children of the node, the marker of a list its number of
    elements. *)
Fixpoint rpn_of (n : Node H) : list (entry H) :=
  match n with
  | Lit v => [E_lit v]
  | LitStr v => [E_lit_str v]
  | LitDate v => [E_lit_date v]
  | Id v => [E_id v]
  | UnaryOp name args => concat (map rpn_of args) ++ [E_unary_op name]
  | BinOp name args => concat (map rpn_of args) ++ [E_bin_op name]
  | Fun name args =>
      concat (map rpn_of args) ++ [E_fun name (Some (length args))]
  | ListLiteral elements =>
      concat (map rpn_of elements) ++ [E_list (length elements)]
  | Other _ => []
  end.

(** The postfix sequence of a working stack, bottom first. *)
Definition rpn_of_stack (stack : list (Node H)) : list (entry H) :=
  concat (map rpn_of (rev stack)).

(** The coercion as the specification words it: [true] and [false] in
    any case, then a value bounded by matching quote characters, then a
    floating-point number. *)
Definition bounded_by_matching_quotes (s : string) : bool :=
  match first_char s, last_char s with
  | Some a, Some b =>
      is_quote a && Ascii.eqb a b && (2 <=? String.length s)%nat
  | _, _ => false
  end.

Definition spec_literal_coercion (s : string) : result (Value H) :=
  if String.eqb (lower s) "true" then Ok (VInt 1)
  else if String.eqb (lower s) "false" then Ok (VInt 0)
  else if bounded_by_matching_quotes s then Ok (VStr (slice_to_last 1 s))
  else
    match float_of_str H s with
    | Some x => Ok (VFloat x)
    | None => Raise (ValueError "could not convert string to float")
    end.

(** The test of the code: a quote of either kind at each end. *)
Definition quote_at_both_ends (s : string) : bool :=
  match first_char s, last_char s with
  | Some a, Some b => is_quote a && is_quote b
  | _, _ => false
  end.

End Spec.

End Spec.

Import Spec.

(* ===================================================================== *)
(** * Properties *)
(* ===================================================================== *)

(** ** The scanner on blank text *)

Section Blank.

Lemma span_all (p : ascii → bool) (s : string) :
  forallb_str p s = true → drop (span p s) s = EmptyString.
Proof.
  induction s as [|c r IH]; simpl; [reflexivity|].
  intros [Hc Hr]%andb_prop. rewrite Hc. simpl. auto.
Qed.

(** No alternative of the group matches the empty text. *)
Lemma group_match_empty (pw : bool) : group_match pw EmptyString = None.
Proof. reflexivity. Qed.

(** No alternative of the group starts with a white-space character:
    the leading [\s*] of the pattern never has to give characters back. *)
Lemma group_match_space (pw : bool) (c : ascii) (r : string) :
  is_space c = true → group_match pw (String c r) = None.
Proof.
  intros Hc.
  destruct c as [b0 b1 b2 b3 b4 b5 b6 b7].
  destruct b0, b1, b2, b3, b4, b5, b6, b7; try discriminate Hc;
    destruct pw; reflexivity.
Qed.

(** So a shorter leading [\s*] leaves the group on white space, where it
    does not match. *)
Lemma leading_space_given_back (pw : bool) (s : string) (k : nat) :
  k < span is_space s → group_match pw (drop k s) = None.
Proof.
  revert s. induction k as [|k IH]; intros [|c r]; simpl; try lia.
  - destruct (is_space c) eqn:Hc; [intros _|lia].
    now apply group_match_space.
  - destruct (is_space c) eqn:Hc; [|lia]. intros Hk. apply IH. lia.
Qed.

Lemma match_at_blank (pw : bool) (s : string) :
  forallb_str is_space s = true → match_at pw s = None.
Proof.
  intros Hs. unfold match_at. rewrite (span_all _ _ Hs).
  rewrite group_match_empty. reflexivity.
Qed.

Lemma append_snoc (a : string) (c : ascii) (r : string) :
  ((a +:+ String c EmptyString) +:+ r)%string = (a +:+ String c r)%string.
Proof.
  induction a as [|x a IH]; [reflexivity|].
  change (String x ((a +:+ String c EmptyString) +:+ r)
          = String x (a +:+ String c r))%string.
  f_equal. exact IH.
Qed.

Lemma append_empty (a : string) : (a +:+ EmptyString)%string = a.
Proof.
  induction a as [|x a IH]; [reflexivity|].
  change (String x (a +:+ EmptyString) = String x a)%string.
  f_equal. exact IH.
Qed.

Lemma split_scan_blank (s : string) : ∀ pw gap,
  forallb_str is_space s = true →
  split_scan pw s 0 gap = [(gap +:+ s)%string].
Proof.
  induction s as [|c r IH]; intros pw gap Hs.
  - simpl. now rewrite append_empty.
  - cbn [split_scan]. rewrite (match_at_blank _ _ Hs).
    simpl in Hs. apply andb_prop in Hs as [_ Hr].
    rewrite (IH _ _ Hr). now rewrite append_snoc.
Qed.

Lemma strip_blank (s : string) :
  forallb_str is_space s = true → strip s = EmptyString.
Proof. intros Hs. unfold strip. now rewrite (span_all _ _ Hs). Qed.

Lemma tokenize_blank (s : string) :
  forallb_str is_space s = true → tokenize s = [].
Proof.
  intros Hs. unfold tokenize, token_regex_split.
  rewrite (split_scan_blank _ _ _ Hs).
  change (EmptyString +:+ s)%string with s. simpl.
  now rewrite (strip_blank _ Hs).
Qed.

End Blank.

(** C10: for the empty text and for every text made of white space only,
    [tokenize] returns no token, the converter returns an empty postfix
    sequence on which the builder ends with an empty stack, and
    [parse_to_tree] raises the malformed-expression error: it returns no
    tree. *)
Theorem blank_text_is_rejected (H : Host) (s : string) :
  forallb_str is_space s = true →
  tokenize s = []
  ∧ shunting_yard (H := H) (tokenize s) = Ok []
  ∧ build_loop (H := H) [] [] = Ok []
  ∧ parse_to_tree (H := H) s = Raise malformed.
Proof.
  intros Hs. pose proof (tokenize_blank s Hs) as Ht.
  unfold parse_to_tree. rewrite Ht. repeat split; reflexivity.
Qed.

(** C10, on a space, a tab and a newline. *)
Lemma blank_text_is_rejected_witness :
  let s := String " " (String (ascii_of_nat 9) (String newline EmptyString)) in
  tokenize s = []
  ∧ shunting_yard (H := CPython.Host) (tokenize s) = Ok []
  ∧ build_loop (H := CPython.Host) [] [] = Ok []
  ∧ parse_to_tree (H := CPython.Host) s = Raise malformed.
Proof.
  exact (blank_text_is_rejected CPython.Host
           (String " " (String (ascii_of_nat 9) (String newline EmptyString)))
           eq_refl).
Defined.

(** ** The operator names *)

Section OperatorNames.

Lemma set_mem_In (k : string) (s : list string) :
  set_mem k s = true → In k s.
Proof.
  unfold set_mem. intros (x & Hx & Hk)%existsb_exists.
  apply String.eqb_eq in Hk. now subst.
Qed.

(** The two sets of the parser have no name in common. *)
Lemma parser_sets_disjoint (name : string) :
  is_unary_operator name && is_binary_operator name = false.
Proof.
  destruct (is_unary_operator name) eqn:Hu; [|reflexivity].
  apply set_mem_In in Hu. simpl in Hu.
  repeat (destruct Hu as [<- | Hu]; [reflexivity|]). destruct Hu.
Qed.

Lemma dict_get_In {V} (d : list (string * V)) (k : string) (v : V) :
  dict_get d k = Some v → In k (names_of d).
Proof.
  induction d as [|[k' v'] d IH]; simpl; [discriminate|].
  destruct (String.eqb_spec k k') as [->|_]; [now left | right; auto].
Qed.

(** Nor have the two tables of the evaluator. *)
Lemma evaluator_tables_disjoint (name q : string) :
  dict_get term_interpreter.unary_operators name = Some q →
  dict_get term_interpreter.binary_operators name = None.
Proof.
  intros Hu%dict_get_In. simpl in Hu.
  repeat (destruct Hu as [<- | Hu]; [reflexivity|]). destruct Hu.
Qed.

End OperatorNames.

(** C3, as the code has it: [is_unary_operator] is true of exactly the
    eight names [not], [neg], [floor], [ceil], [abs], [int], [float],
    [bool]: of each of them, and of no other text.  It is false of
    [trunc], [str], [isinf], [isnan], [isfinite], [inv] and [~], which are
    unary operators in the table of the evaluator only (where [~] and
    [inv] are bound to the same function); it is false of every name of
    the binary set, and the unary and binary names are disjoint, in the
    parser and in the evaluator. *)
Theorem unary_classifier_names :
  Forall (fun name => is_unary_operator name = true)
    ["not"; "neg"; "floor"; "ceil"; "abs"; "int"; "float"; "bool"]
  ∧ (∀ name, is_unary_operator name = true ↔
       In name ["not"; "neg"; "floor"; "ceil"; "abs"; "int"; "float"; "bool"])
  ∧ Forall (fun name => is_unary_operator name = false)
      ["trunc"; "str"; "isinf"; "isnan"; "isfinite"; "inv"; "~"]
  ∧ Forall (fun name => is_unary_operator name = false)
      term_parser.binary_operators
  ∧ (∀ name, is_unary_operator name && is_binary_operator name = false)
  ∧ names_of term_interpreter.unary_operators =
      ["not"; "inv"; "~"; "neg"; "floor"; "trunc"; "ceil"; "isinf"; "isnan";
       "isfinite"; "abs"; "int"; "str"; "float"; "bool"]
  ∧ dict_get term_interpreter.unary_operators "~" = Some "operator.inv"
  ∧ dict_get term_interpreter.unary_operators "inv" = Some "operator.inv"
  ∧ (∀ name, match dict_get term_interpreter.unary_operators name with
             | Some _ => dict_get term_interpreter.binary_operators name = None
             | None => True
             end).
Proof.
  split; [repeat (constructor; [reflexivity|]); constructor|].
  split.
  { intros name. split.
    - intros Hu. exact (set_mem_In _ _ Hu).
    - intros Hin. simpl in Hin.
      repeat (destruct Hin as [<- | Hin]; [reflexivity|]). destruct Hin. }
  repeat split.
  - repeat (constructor; [reflexivity|]); constructor.
  - repeat (constructor; [reflexivity|]); constructor.
  - exact parser_sets_disjoint.
  - intros name.
    destruct (dict_get term_interpreter.unary_operators name) eqn:Hu; [|exact I].
    exact (evaluator_tables_disjoint _ _ Hu).
Qed.

(** C3 as stated fails: the classifier of the parser rejects [trunc]
    (and the six other names that only the evaluator knows). *)
Lemma unary_classifier_rejects_trunc :
  is_unary_operator "trunc" = false
  ∧ is_unary_operator "str" = false
  ∧ is_unary_operator "isinf" = false
  ∧ is_unary_operator "isnan" = false
  ∧ is_unary_operator "isfinite" = false
  ∧ is_unary_operator "inv" = false
  ∧ is_unary_operator "~" = false.
Proof. repeat split. Qed.

(** ** The evaluator *)

Section EvaluatorProperties.
Context {H : Host} (R : Runtime H).

Implicit Types (env : gmap string (Value H)) (w : world R).

Lemma join_lookup env (name : string) :
  join env !! name =
    match env !! name with
    | Some v => Some v
    | None => builtin_env !! name
    end.
Proof.
  unfold join. rewrite lookup_union.
  destruct (env !! name), (builtin_env (H := H) !! name); reflexivity.
Qed.

Lemma evaluate_id env (jb : bool) (name : string) w :
  evaluate R (Id name) env jb w =
    (match (if jb then join env else env) !! name with
     | Some v => Ok v
     | None => Raise (NameError ("Undefined identifier: " +:+ name))
     end, w).
Proof.
  cbn [evaluate]. destruct ((if jb then join env else env) !! name); reflexivity.
Qed.

Lemma evaluate_bin_op env (jb : bool) (name : string) (l r : Node H) w :
  evaluate R (BinOp name [l; r]) env jb w =
    let env' := if jb then join env else env in
    match evaluate R l env' false w with
    | (Raise e, w1) => (Raise e, w1)
    | (Ok left_val, w1) =>
        match evaluate R r env' false w1 with
        | (Raise e, w2) => (Raise e, w2)
        | (Ok right_val, w2) =>
            match dict_get term_interpreter.binary_operators name with
            | Some f => call_binary R f left_val right_val w2
            | None => (Raise (KeyError name), w2)
            end
        end
    end.
Proof.
  cbn [evaluate]. cbv zeta.
  unfold mbind, eval_bind, and_then.
  destruct (evaluate R l _ false w) as [[lv|e] w1]; [|reflexivity].
  destruct (evaluate R r _ false w1) as [[rv|e] w2]; [|reflexivity].
  destruct (dict_get term_interpreter.binary_operators name); reflexivity.
Qed.

End EvaluatorProperties.

(** C8: an identifier evaluates to what the merged environment binds it
    to; in the merged environment the binding of the caller is the one
    kept when the catalog binds the same name; the evaluation raises the
    undefined-identifier [NameError] exactly when neither binds the name,
    and it changes nothing in the world. *)
Theorem identifier_resolution (H : Host) (R : Runtime H)
    (env : gmap string (Value H)) (name : string) (w : world R) :
  evaluate R (Id name) env true w =
    (match env !! name with
     | Some v => Ok v
     | None =>
         match builtin_env !! name with
         | Some v => Ok v
         | None => Raise (NameError ("Undefined identifier: " +:+ name))
         end
     end, w)
  ∧ join env !! name =
      match env !! name with Some v => Some v | None => builtin_env !! name end
  ∧ (is_ok (fst (evaluate R (Id name) env true w)) = false
     ↔ env !! name = None ∧ builtin_env (H := H) !! name = None).
Proof.
  rewrite evaluate_id, join_lookup.
  destruct (env !! name) as [v|], (builtin_env (H := H) !! name) as [b|];
    simpl; (split; [reflexivity|split; [reflexivity|]]);
    split; try discriminate; try tauto; intros [? ?]; discriminate.
Qed.

(** C8, on a caller environment that binds [x] and rebinds [pi]: [x]
    and [pi] have the values of the caller, [e] the value of the catalog,
    and [y], bound by neither, raises. *)
Lemma identifier_resolution_witness :
  let env : gmap string CPython.Val :=
    <["x" := VInt 3]> (<["pi" := VInt 4]> ∅) in
  evaluate CPython.Runtime (Id "x") env true tt = (Ok (VInt 3), tt)
  ∧ evaluate CPython.Runtime (Id "pi") env true tt = (Ok (VInt 4), tt)
  ∧ evaluate CPython.Runtime (Id "e") env true tt
    = (Ok (CPython.vfloat (math_e CPython.Host)), tt)
  ∧ evaluate CPython.Runtime (Id "y") env true tt
    = (Raise (NameError "Undefined identifier: y"), tt).
Proof.
  cbv zeta. refine (conj _ (conj _ (conj _ _))).
  - exact (proj1 (identifier_resolution CPython.Host CPython.Runtime
                    (<["x" := VInt 3]> (<["pi" := VInt 4]> ∅)) "x" tt)).
  - exact (proj1 (identifier_resolution CPython.Host CPython.Runtime
                    (<["x" := VInt 3]> (<["pi" := VInt 4]> ∅)) "pi" tt)).
  - exact (proj1 (identifier_resolution CPython.Host CPython.Runtime
                    (<["x" := VInt 3]> (<["pi" := VInt 4]> ∅)) "e" tt)).
  - exact (proj1 (identifier_resolution CPython.Host CPython.Runtime
                    (<["x" := VInt 3]> (<["pi" := VInt 4]> ∅)) "y" tt)).
Defined.

(** C7: a binary node evaluates its left operand, then its right operand
    in the world the left one leaves, and only then looks the operator up
    and applies it, whatever the operator.  In particular, when the left
    operand has a value and the right operand raises, the node raises the
    same exception: [and] and [or] do not stop at the left operand. *)
Theorem binary_operands_both_evaluated (H : Host) (R : Runtime H)
    (env : gmap string (Value H)) (name : string) (l r : Node H) (w : world R) :
  evaluate R (BinOp name [l; r]) env true w =
    match evaluate R l (join env) false w with
    | (Raise e, w1) => (Raise e, w1)
    | (Ok left_val, w1) =>
        match evaluate R r (join env) false w1 with
        | (Raise e, w2) => (Raise e, w2)
        | (Ok right_val, w2) =>
            match dict_get term_interpreter.binary_operators name with
            | Some f => call_binary R f left_val right_val w2
            | None => (Raise (KeyError name), w2)
            end
        end
    end
  ∧ (∀ left_val w1 e w2,
       evaluate R l (join env) false w = (Ok left_val, w1) →
       evaluate R r (join env) false w1 = (Raise e, w2) →
       evaluate R (BinOp "and" [l; r]) env true w = (Raise e, w2)
       ∧ evaluate R (BinOp "or" [l; r]) env true w = (Raise e, w2))
  ∧ (∀ left_val w1 right_val w2,
       evaluate R l (join env) false w = (Ok left_val, w1) →
       evaluate R r (join env) false w1 = (Ok right_val, w2) →
       evaluate R (BinOp "and" [l; r]) env true w =
         (Ok (if truth R left_val then right_val else left_val), w2)
       ∧ evaluate R (BinOp "or" [l; r]) env true w =
         (Ok (if truth R left_val then left_val else right_val), w2)).
Proof.
  split; [exact (evaluate_bin_op R env true name l r w)|].
  split; intros ? ? ? ? Hl Hr; rewrite !evaluate_bin_op; cbv zeta;
    rewrite Hl, Hr; split; reflexivity.
Qed.

(** C7, on [false and missing] and [true or missing]: the left operand
    alone decides the value of the operator, the right one is an
    identifier that nothing binds, and the node raises. *)
Lemma binary_operands_both_evaluated_witness :
  evaluate CPython.Runtime
      (BinOp "and" [Lit (VStr "false"); Id "missing"]) ∅ true tt
    = (Raise (NameError "Undefined identifier: missing"), tt)
  ∧ evaluate CPython.Runtime
      (BinOp "or" [Lit (VStr "true"); Id "missing"]) ∅ true tt
    = (Raise (NameError "Undefined identifier: missing"), tt).
Proof.
  split.
  - exact (proj1 (proj1 (proj2 (binary_operands_both_evaluated
             CPython.Host CPython.Runtime ∅ "and"
             (Lit (VStr "false")) (Id "missing") tt))
             (VInt 0) tt (NameError "Undefined identifier: missing") tt
             eq_refl eq_refl)).
  - exact (proj2 (proj1 (proj2 (binary_operands_both_evaluated
             CPython.Host CPython.Runtime ∅ "or"
             (Lit (VStr "true")) (Id "missing") tt))
             (VInt 1) tt (NameError "Undefined identifier: missing") tt
             eq_refl eq_refl)).
Defined.

(** ** String-valued number literals *)

Section LiteralCoercion.
Context {H : Host}.

Lemma last_char_nonempty (c : ascii) (r : string) :
  ∃ b, last_char (String c r) = Some b.
Proof.
  revert c. induction r as [|d r IH]; intros c; [now exists c|].
  destruct (IH d) as [b Hb]. exists b. exact Hb.
Qed.

End LiteralCoercion.

(** C5, as the code has it: a number literal whose value is a text
    evaluates, in this order, to the integer 1 when the text is [true] in
    any case, to the integer 0 when it is [false] in any case, and
    otherwise, when the text is not empty and has a quote character of
    either kind at each end (not necessarily the same one), to the text
    without its first and last characters; otherwise to the float the
    text denotes, failing when it denotes none.  The empty text fails at
    the quote test.  The evaluation reads neither the environment nor the
    world, and it agrees with the specification's wording whenever the
    text is not empty and is bounded by matching quotes if it has a quote
    at both ends. *)
Theorem literal_coercion_order (H : Host) (R : Runtime H)
    (env : gmap string (Value H)) (jb : bool) (s : string) (w : world R) :
  evaluate R (Lit (VStr s)) env jb w =
    (if String.eqb (lower s) "true" then Ok (VInt 1)
     else if String.eqb (lower s) "false" then Ok (VInt 0)
     else if String.eqb s EmptyString then
       Raise (IndexError "string index out of range")
     else if quote_at_both_ends s then Ok (VStr (slice_to_last 1 s))
     else
       match float_of_str H s with
       | Some x => Ok (VFloat x)
       | None => Raise (ValueError "could not convert string to float")
       end, w)
  ∧ (s ≠ EmptyString →
     quote_at_both_ends s = bounded_by_matching_quotes s →
     evaluate R (Lit (VStr s)) env jb w = (spec_literal_coercion s, w)).
Proof.
  assert (Hcode : evaluate R (Lit (VStr s)) env jb w =
    (if String.eqb (lower s) "true" then Ok (VInt 1)
     else if String.eqb (lower s) "false" then Ok (VInt 0)
     else if String.eqb s EmptyString then
       Raise (IndexError "string index out of range")
     else if quote_at_both_ends s then Ok (VStr (slice_to_last 1 s))
     else
       match float_of_str H s with
       | Some x => Ok (VFloat x)
       | None => Raise (ValueError "could not convert string to float")
       end, w)).
  { cbn [evaluate]. unfold literal_of_string, quote_at_both_ends.
    destruct (String.eqb (lower s) "true"); [reflexivity|].
    destruct (String.eqb (lower s) "false"); [reflexivity|].
    destruct s as [|c r]; [reflexivity|].
    destruct (last_char_nonempty c r) as [b Hb].
    change (String.eqb (String c r) EmptyString) with false. cbv iota.
    rewrite Hb. cbn [first_char].
    destruct (is_quote c && is_quote b); [reflexivity|].
    destruct (float_of_str H (String c r)); reflexivity. }
  split; [exact Hcode|].
  intros Hne Hq. rewrite Hcode. unfold spec_literal_coercion.
  destruct (String.eqb_spec s EmptyString) as [->|_]; [contradiction|].
  rewrite Hq. reflexivity.
Qed.

(** C5, on the text ['hello'] between matching quotes. *)
Lemma literal_coercion_order_witness :
  evaluate CPython.Runtime (Lit (VStr "'hello'")) ∅ true tt
   = (spec_literal_coercion (H := CPython.Host) "'hello'", tt).
Proof.
  refine (proj2 (literal_coercion_order CPython.Host CPython.Runtime
                   ∅ true "'hello'" tt) _ eq_refl).
  discriminate.
Defined.

(** C5 as stated fails: a text that opens with a double quote and closes
    with a single quote is not bounded by matching quote characters and
    denotes no number, so the specification's order ends in a failure;
    the code returns the text between the two quotes. *)
Lemma literal_coercion_mixed_quotes :
  let s := String dquote "abc'" in
  bounded_by_matching_quotes s = false
  ∧ spec_literal_coercion (H := CPython.Host) s
    = Raise (ValueError "could not convert string to float")
  ∧ evaluate CPython.Runtime (Lit (VStr s)) ∅ true tt = (Ok (VStr "abc"), tt).
Proof. repeat split. Qed.

(** ** Date literals *)

Section DateLiterals.
Context {H : Host}.

Lemma startswith_d (p token : string) :
  startswith (String "d" p) token = true → ∃ r, token = String "d" r.
Proof.
  destruct token as [|c r]; [discriminate|]. cbn [startswith].
  destruct (Ascii.eqb_spec "d" c) as [<-|_]; [eauto | discriminate].
Qed.

(** A date literal is taken by neither of the two rules tried before the
    date rule. *)
Lemma date_literal_earlier_rules (token : string) :
  is_date_literal token = true →
  is_number token = false ∧ is_string_literal token = false.
Proof.
  unfold is_date_literal.
  intros [[[r ->]%startswith_d _]%andb_prop|[[r ->]%startswith_d _]%andb_prop]%orb_prop;
    split; reflexivity.
Qed.

Lemma step_date_literal (st : state H) (token : string) :
  is_date_literal token = true →
  step st token =
    (string_value ← unescape_string_literal (H := H) (slice_to_last 2 token);
     if is_iso_date_string string_value then
       d ← parse_iso_date_string (H := H) string_value;
       Ok (append_output (E_lit_date (VDate d)) st)
     else Ok st).
Proof.
  intros Hd. destruct (date_literal_earlier_rules token Hd) as [Hn Hs].
  unfold step. rewrite Hn, Hs, Hd. reflexivity.
Qed.

End DateLiterals.

(** C6: for a date literal whose unescaped content fails the ISO
    pattern, the step of the converter returns the state it was given:
    nothing is appended to the output queue and nothing is raised.  When
    the content passes the pattern it is handed to the date parser and
    the date obtained is appended as a date literal (the parser's refusal
    of a content, if any, is raised as [ValueError]). *)
Theorem invalid_date_literal_dropped (H : Host) (st : state H)
    (token content : string) :
  is_date_literal token = true →
  unicode_escape H (slice_to_last 2 token) = Some content →
  (is_iso_date_string content = false → step st token = Ok st)
  ∧ (is_iso_date_string content = true →
     step st token =
       match fromisoformat H content with
       | Some d => Ok (append_output (E_lit_date (VDate d)) st)
       | None => Raise (ValueError ("Invalid ISO date string: " +:+ content))
       end).
Proof.
  intros Hd Hu. rewrite (step_date_literal st token Hd).
  unfold unescape_string_literal. rewrite Hu.
  split; intros Hiso; cbn; rewrite Hiso; [reflexivity|].
  unfold parse_iso_date_string. destruct (fromisoformat H content); reflexivity.
Qed.

(** C6, on [d'2023/01/01'] (dropped) and [d'2023-01-01'] (appended). *)
Lemma invalid_date_literal_dropped_witness :
  step (H := CPython.Host) initial "d'2023/01/01'" = Ok initial
  ∧ step (H := CPython.Host) initial "d'2023-01-01'" =
      Ok (append_output
            (E_lit_date (CPython.vdate (CPython.midnight 2023 1 1))) initial).
Proof.
  split.
  - exact (proj1 (invalid_date_literal_dropped CPython.Host initial
                    "d'2023/01/01'" "2023/01/01" eq_refl eq_refl) eq_refl).
  - exact (proj2 (invalid_date_literal_dropped CPython.Host initial
                    "d'2023-01-01'" "2023-01-01" eq_refl eq_refl) eq_refl).
Defined.

(** ** The builder *)

Section Builder.
Context {H : Host}.

Lemma rpn_of_stack_cons (x : Node H) (stack : list (Node H)) :
  rpn_of_stack (x :: stack) = rpn_of_stack stack ++ rpn_of x.
Proof.
  unfold rpn_of_stack. simpl. rewrite map_app, concat_app. simpl.
  now rewrite app_nil_r.
Qed.

Lemma rpn_of_stack_app (xs stack : list (Node H)) :
  rpn_of_stack (xs ++ stack) = rpn_of_stack stack ++ concat (map rpn_of (rev xs)).
Proof.
  unfold rpn_of_stack. now rewrite rev_app_distr, map_app, concat_app.
Qed.

(** [pop_n] takes exactly [n] nodes off the stack or raises. *)
Lemma pop_n_ok (n : nat) : ∀ stack xs rest : list (Node H),
  pop_n n stack = Ok (xs, rest) → stack = xs ++ rest ∧ length xs = n.
Proof.
  induction n as [|n IH]; intros stack xs rest; simpl.
  - intros [= <- <-]. split; reflexivity.
  - destruct stack as [|x stack]; [discriminate|]. cbn.
    destruct (pop_n n stack) as [[ys rest']|e] eqn:Hp; cbn; [|discriminate].
    intros [= <- <-]. destruct (IH _ _ _ Hp) as [-> <-]. split; reflexivity.
Qed.

(** A call marker makes a node with as many children as it records, in
    the order they were pushed; a list marker likewise. *)
Lemma build_step_call (stack stack' : list (Node H)) (name : string) (n : nat) :
  build_step stack (E_fun name (Some n)) = Ok stack' →
  ∃ args rest, stack' = Fun name args :: rest ∧ length args = n
               ∧ stack = rev args ++ rest.
Proof.
  cbn. destruct (pop_n n stack) as [[xs rest]|e] eqn:Hp; cbn; [|discriminate].
  intros [= <-]. destruct (pop_n_ok _ _ _ _ Hp) as [-> <-].
  exists (rev xs), rest. now rewrite length_rev, rev_involutive.
Qed.

Lemma build_step_list (stack stack' : list (Node H)) (n : nat) :
  build_step stack (E_list n) = Ok stack' →
  ∃ elements rest, stack' = ListLiteral elements :: rest
                   ∧ length elements = n ∧ stack = rev elements ++ rest.
Proof.
  cbn. destruct (pop_n n stack) as [[xs rest]|e] eqn:Hp; cbn; [|discriminate].
  intros [= <-]. destruct (pop_n_ok _ _ _ _ Hp) as [-> <-].
  exists (rev xs), rest. now rewrite length_rev, rev_involutive.
Qed.

Lemma build_step_rpn (stack stack' : list (Node H)) (token : entry H) :
  build_step stack token = Ok stack' →
  rpn_of_stack stack' = rpn_of_stack stack ++ [token].
Proof.
  destruct token as [s|v|v|v|v|name [n|]|n|name|name];
    try discriminate;
    try (intros [= <-]; rewrite rpn_of_stack_cons; reflexivity).
  - cbn. destruct (pop_n n stack) as [[xs rest]|e] eqn:Hp; cbn; [|discriminate].
    intros [= <-]. destruct (pop_n_ok _ _ _ _ Hp) as [-> <-].
    rewrite rpn_of_stack_cons, rpn_of_stack_app. cbn [rpn_of].
    rewrite length_rev. apply app_assoc.
  - cbn. destruct (pop_n n stack) as [[xs rest]|e] eqn:Hp; cbn; [|discriminate].
    intros [= <-]. destruct (pop_n_ok _ _ _ _ Hp) as [-> <-].
    rewrite rpn_of_stack_cons, rpn_of_stack_app. cbn [rpn_of].
    rewrite length_rev. apply app_assoc.
  - destruct stack as [|r [|l stack]]; intros Hb; cbn in Hb; try discriminate.
    injection Hb as <-. rewrite !rpn_of_stack_cons. cbn [rpn_of map concat].
    rewrite app_nil_r, <- !app_assoc. reflexivity.
  - destruct stack as [|x stack]; intros Hb; cbn in Hb; try discriminate.
    injection Hb as <-. rewrite !rpn_of_stack_cons. cbn [rpn_of map concat].
    rewrite app_nil_r, <- !app_assoc. reflexivity.
Qed.

Lemma build_loop_rpn (rpn : list (entry H)) : ∀ stack stack',
  build_loop rpn stack = Ok stack' →
  rpn_of_stack stack' = rpn_of_stack stack ++ rpn.
Proof.
  induction rpn as [|token rpn IH]; intros stack stack'; simpl.
  - intros [= <-]. now rewrite app_nil_r.
  - destruct (build_step stack token) as [stack1|e] eqn:Hs; cbn; [|discriminate].
    intros Hl. rewrite (IH _ _ Hl), (build_step_rpn _ _ _ Hs), <- app_assoc.
    reflexivity.
Qed.

Lemma build_tree_ok (rpn : list (entry H)) (root : Node H) :
  build_tree rpn = Ok root → build_loop rpn [] = Ok [root].
Proof.
  unfold build_tree.
  destruct (build_loop rpn []) as [[|x [|y stack]]|e]; cbn; try discriminate.
  now intros [= <-].
Qed.

Lemma build_tree_not_one (rpn : list (entry H)) (stack : list (Node H)) :
  build_loop rpn [] = Ok stack → length stack ≠ 1 →
  build_tree rpn = Raise malformed.
Proof.
  unfold build_tree. intros -> Hl.
  destruct stack as [|x [|y stack]]; cbn; try reflexivity. now elim Hl.
Qed.

Lemma parse_to_tree_ok (text : string) (ast : Node H) :
  parse_to_tree text = Ok ast →
  ∃ rpn, shunting_yard (tokenize text) = Ok rpn ∧ build_tree rpn = Ok ast.
Proof.
  unfold parse_to_tree.
  destruct (check_parentheses_balance (tokenize text)); cbn; [|discriminate].
  destruct (shunting_yard (tokenize text)) as [rpn|e]; cbn; [|discriminate].
  eauto.
Qed.

End Builder.

(** C9: when [parse_to_tree] returns a tree, the builder has consumed
    the whole postfix sequence of the converter and is left with that
    tree alone on its stack; the postfix sequence is the one of the tree,
    so that the count recorded in the marker of every call is the number
    of children of its node and the count recorded in the marker of every
    list is its number of elements: a marker makes its node out of exactly
    the number of nodes it records, or the builder raises.  Whenever the
    stack of the builder ends with more or fewer than one node, the
    builder raises. *)
Theorem parse_single_root_and_counts (H : Host) (text : string) (ast : Node H) :
  parse_to_tree text = Ok ast →
  (∃ rpn, shunting_yard (tokenize text) = Ok rpn
          ∧ build_loop rpn [] = Ok [ast]
          ∧ rpn_of ast = rpn)
  ∧ (∀ rpn stack, build_loop (H := H) rpn [] = Ok stack → length stack ≠ 1 →
       build_tree rpn = Raise malformed)
  ∧ (∀ (stack stack' : list (Node H)) name n,
       build_step stack (E_fun name (Some n)) = Ok stack' →
       ∃ args rest, stack' = Fun name args :: rest ∧ length args = n
                    ∧ stack = rev args ++ rest)
  ∧ (∀ (stack stack' : list (Node H)) n,
       build_step stack (E_list n) = Ok stack' →
       ∃ elements rest, stack' = ListLiteral elements :: rest
                        ∧ length elements = n ∧ stack = rev elements ++ rest).
Proof.
  intros (rpn & Hsy & Hb)%parse_to_tree_ok.
  split; [|split; [exact build_tree_not_one|
                   split; [exact build_step_call|exact build_step_list]]].
  exists rpn. apply build_tree_ok in Hb. repeat split; try assumption.
  apply build_loop_rpn in Hb. unfold rpn_of_stack in Hb. cbn in Hb.
  now rewrite app_nil_r in Hb.
Qed.

(** C9, on a call of two arguments inside a list of two elements. *)
Lemma parse_single_root_and_counts_witness :
  let ast := ListLiteral (H := CPython.Host)
               [Fun "f" [Id "x"; Id "y"]; Id "z"] in
  (∃ rpn, shunting_yard (tokenize "[f(x, y), z]") = Ok rpn
          ∧ build_loop rpn [] = Ok [ast]
          ∧ rpn_of ast = rpn)
  ∧ (∀ rpn stack, build_loop (H := CPython.Host) rpn [] = Ok stack →
       length stack ≠ 1 → build_tree rpn = Raise malformed).
Proof.
  pose proof (parse_single_root_and_counts CPython.Host "[f(x, y), z]"
                (ListLiteral [Fun "f" [Id "x"; Id "y"]; Id "z"]) eq_refl)
    as (Hroot & Hone & _).
  exact (conj Hroot Hone).
Defined.

(** ** The operator rule *)

Section OperatorRule.
Context {H : Host}.

Lemma pop_operators_operator (token : string) (top : entry H)
    (rest out : list (entry H)) (a : string) (p sp : Z) :
  is_operator_entry top = true →
  dict_get associativity token = Some a →
  dict_get precedence token = Some p →
  get_stack_precedence (top :: rest) = Ok sp →
  pop_operators token (top :: rest) out =
    if decide ((a = "L" ∧ (p ≤ sp)%Z) ∨ (a = "R" ∧ (p < sp)%Z))
    then pop_operators token rest (top :: out)
    else Ok (top :: rest, out).
Proof.
  intros Hop Ha Hp Hsp. cbn [pop_operators].
  unfold operator_pops, get_precedence, subscript.
  rewrite Hop, Ha, Hp, Hsp. cbn.
  destruct (String.eqb_spec a "L") as [->|HL]; cbn.
  - destruct (Z.leb_spec p sp); destruct (decide _) as [Hd|Hd];
      try reflexivity; exfalso.
    + apply Hd. left. split; [reflexivity | lia].
    + destruct Hd as [[_ ?]|[[=] _]]. lia.
  - destruct (String.eqb_spec a "R") as [->|HR]; cbn.
    + destruct (Z.ltb_spec p sp); destruct (decide _) as [Hd|Hd];
        try reflexivity; exfalso.
      * apply Hd. right. split; [reflexivity | lia].
      * destruct Hd as [[[=] _]|[_ ?]]. lia.
    + destruct (decide _) as [[[? _]|[? _]]|Hd]; [contradiction..|reflexivity].
Qed.

Lemma pop_operators_other (token : string) (top : entry H)
    (rest out : list (entry H)) :
  is_operator_entry top = false →
  pop_operators token (top :: rest) out = Ok (top :: rest, out).
Proof.
  intros Hop. cbn [pop_operators]. unfold operator_pops. rewrite Hop.
  reflexivity.
Qed.

(** An incoming operator without an entry in [associativity] stops the
    conversion when it meets an operator on the stack. *)
Lemma pop_operators_no_associativity (token : string) (top : entry H)
    (rest out : list (entry H)) :
  is_operator_entry top = true →
  dict_get associativity token = None →
  pop_operators token (top :: rest) out = Raise (KeyError token).
Proof.
  intros Hop Ha. cbn [pop_operators]. unfold operator_pops, subscript.
  rewrite Hop, Ha. reflexivity.
Qed.

Lemma is_operator_In (name : string) :
  is_operator name = true →
  In name (term_parser.binary_operators ++ term_parser.unary_operators).
Proof.
  unfold is_operator. intros [Hb|Hu]%orb_prop; apply in_or_app.
  - left. now apply set_mem_In.
  - right. now apply set_mem_In.
Qed.

(** Every operator has a precedence; every operator but [neg] has an
    associativity, which is ["L"] or ["R"]. *)
Lemma operator_tables (name : string) :
  is_operator name = true →
  (∃ p, dict_get precedence name = Some p)
  ∧ (name = "neg" ∧ dict_get associativity name = None
     ∨ dict_get associativity name = Some "L"
     ∨ dict_get associativity name = Some "R").
Proof.
  intros Hin%is_operator_In. simpl in Hin.
  repeat (destruct Hin as [<- | Hin];
          [split; [eexists; reflexivity | tauto]|]).
  destruct Hin.
Qed.

End OperatorRule.

(** C4: with an operator on top of the stack, the converter pops it
    before pushing the incoming operator exactly when the incoming one is
    left-associative with a precedence at most that of the top, or
    right-associative with a precedence strictly below it, and goes on
    with the entry underneath; an entry that is not an operator is never
    popped by this rule.  Every operator has a precedence and, [neg]
    apart, an associativity; [neg] arriving over an operator raises
    [KeyError] and pops nothing.  [**] is right-associative, so ["2 ** 3 ** 2"]
    parses as [2 ** (3 ** 2)], whose value is 512; grouped to the left it
    would be 64. *)
Theorem operator_pop_rule (H : Host) :
  (∀ (token : string) (top : entry H) (rest out : list (entry H))
     (a : string) (p sp : Z),
     is_operator_entry top = true →
     dict_get associativity token = Some a →
     dict_get precedence token = Some p →
     get_stack_precedence (top :: rest) = Ok sp →
     pop_operators token (top :: rest) out =
       if decide ((a = "L" ∧ (p ≤ sp)%Z) ∨ (a = "R" ∧ (p < sp)%Z))
       then pop_operators token rest (top :: out)
       else Ok (top :: rest, out))
  ∧ (∀ (token : string) (top : entry H) (rest out : list (entry H)),
       is_operator_entry top = false →
       pop_operators token (top :: rest) out = Ok (top :: rest, out))
  ∧ (∀ (token : string) (top : entry H) (rest out : list (entry H)),
       is_operator_entry top = true →
       dict_get associativity token = None →
       pop_operators token (top :: rest) out = Raise (KeyError token))
  ∧ (∀ name, is_operator name = true →
       (∃ p, dict_get precedence name = Some p)
       ∧ (name = "neg" ∧ dict_get associativity name = None
          ∨ dict_get associativity name = Some "L"
          ∨ dict_get associativity name = Some "R"))
  ∧ dict_get associativity "**" = Some "R"
  ∧ tokenize "2 ** 3 ** 2" = ["2"; "**"; "3"; "**"; "2"]
  ∧ parse_to_tree (H := H) "2 ** 3 ** 2" =
      Ok (BinOp "**" [Lit (number_of "2");
                      BinOp "**" [Lit (number_of "3"); Lit (number_of "2")]])
  ∧ CPython.eval_text "2 ** 3 ** 2" = Ok (CPython.vfloat 512)
  ∧ fst (evaluate CPython.Runtime
           (BinOp "**" [BinOp "**" [Lit (CPython.vfloat 2); Lit (CPython.vfloat 3)];
                        Lit (CPython.vfloat 2)]) ∅ true tt)
    = Ok (CPython.vfloat 64).
Proof.
  split; [exact pop_operators_operator|].
  split; [exact pop_operators_other|].
  split; [exact pop_operators_no_associativity|].
  split; [exact operator_tables|].
  repeat split.
Qed.

(** C4, on [**] arriving over [**] (equal precedence, right-associative:
    kept) and on [+] arriving over [*] (lower precedence,
    left-associative: popped). *)
Lemma operator_pop_rule_witness :
  pop_operators (H := CPython.Host) "**" [E_bin_op "**"] [] =
    Ok ([E_bin_op "**"], [])
  ∧ pop_operators (H := CPython.Host) "+" [E_bin_op "*"] [] =
    Ok ([], [E_bin_op "*"]).
Proof.
  split.
  - exact (proj1 (operator_pop_rule CPython.Host) "**" (E_bin_op "**") [] []
             "R" 9%Z 9%Z eq_refl eq_refl eq_refl eq_refl).
  - exact (proj1 (operator_pop_rule CPython.Host) "+" (E_bin_op "*") [] []
             "L" 6%Z 7%Z eq_refl eq_refl eq_refl eq_refl).
Defined.

(** ** Closing a parenthesis *)

Section ClosingParenthesis.
Context {H : Host}.

Lemma unroll_until (go : entry H → bool) (above : list (entry H))
    (e : entry H) (rest out : list (entry H)) :
  Forall (fun x => go x = true) above → go e = false →
  unroll go (above ++ e :: rest) out = (e :: rest, rev above ++ out).
Proof.
  intros Habove He. revert out.
  induction Habove as [|x above Hx _ IH]; intros out; simpl.
  - now rewrite He.
  - rewrite Hx, IH, <- app_assoc. reflexivity.
Qed.

(** With a function marker under the parenthesis that is closed, the
    marker leaves with the count on top of [argument_count], whatever that
    count is, after the entries pushed above the parenthesis. *)
Lemma close_paren_call (st : state H) (above : list (entry H))
    (name : string) (mark : option nat) (rest : list (entry H))
    (c : nat) (argc : list nat) :
  Forall (fun x => is_raw "(" x = false) above →
  operator_stack st = above ++ E_raw "(" :: E_fun name mark :: rest →
  argument_count st = c :: argc →
  close_paren_rule st =
    Ok {| output_queue := E_fun name (Some c) :: rev above ++ output_queue st;
          operator_stack := rest;
          argument_count := argc;
          element_count := element_count st |}.
Proof.
  intros Habove Hops Hargc. unfold close_paren_rule. rewrite Hops, Hargc.
  rewrite unroll_until; [reflexivity| |reflexivity].
  eapply Forall_impl; [exact Habove|]. intros x Hx. cbn. now rewrite Hx.
Qed.

(** With a raw string under the parenthesis that is closed, whatever was
    pushed above the parenthesis, the subscript
    [operator_stack[-1]["type"]] is applied to that string. *)
Lemma close_paren_raw (st : state H) (above : list (entry H)) (s : string)
    (rest : list (entry H)) :
  Forall (fun x => is_raw "(" x = false) above →
  operator_stack st = above ++ E_raw "(" :: E_raw s :: rest →
  close_paren_rule st = Raise string_subscript_error.
Proof.
  intros Habove Hops. unfold close_paren_rule. rewrite Hops.
  rewrite unroll_until; [reflexivity| |reflexivity].
  eapply Forall_impl; [exact Habove|]. intros x Hx. cbn. now rewrite Hx.
Qed.

(** A token that [is_identifier] accepts is not taken by one of the three
    rules tried before the identifier rule, and is no function name. *)
Lemma identifier_earlier_rules (token : string) :
  is_identifier token = true →
  is_number token = false ∧ is_string_literal token = false
  ∧ is_date_literal token = false ∧ is_function token = false.
Proof.
  destruct token as [|c r]; [discriminate|].
  unfold is_identifier. intros [[Hc Hend]%andb_prop _]%andb_prop.
  destruct c as [b0 b1 b2 b3 b4 b5 b6 b7].
  destruct b0, b1, b2, b3, b4, b5, b6, b7; try discriminate Hc;
    (repeat split; try reflexivity).
  (* what is left is the date rule on a token that starts with [d] *)
  all: unfold is_date_literal, dq; cbn [startswith];
    destruct r as [|c2 r2]; [reflexivity|];
    destruct (Ascii.eqb_spec dquote c2) as [<-|_];
    [destruct r2; discriminate Hend|];
    destruct (Ascii.eqb_spec "'" c2) as [<-|_];
    [destruct r2; discriminate Hend|];
    reflexivity.
Qed.

Lemma step_identifier (st : state H) (token : string) :
  is_identifier token = true → is_operator token = false →
  step st token = Ok (append_output (E_id token) st).
Proof.
  intros Hid Hop.
  destruct (identifier_earlier_rules token Hid) as (Hn & Hs & Hd & Hf).
  unfold step. rewrite Hn, Hs, Hd, Hid, Hf, Hop. reflexivity.
Qed.

Lemma step_open_paren (st : state H) :
  step st "(" = open_paren_rule st "(".
Proof. reflexivity. Qed.

Lemma step_close_paren (st : state H) : step st ")" = close_paren_rule st.
Proof. reflexivity. Qed.

(** A call of one identifier on one identifier. *)
Lemma call_of_one_identifier (f x : string) :
  is_identifier f = true → is_operator f = false →
  is_identifier x = true → is_operator x = false →
  shunting_yard (H := H) [f; "("; x; ")"] = Ok [E_id x; E_fun f (Some 0)]
  ∧ build_loop (H := H) [E_id x; E_fun f (Some 0)] [] = Ok [Fun f []; Id x]
  ∧ build_tree (H := H) [E_id x; E_fun f (Some 0)] = Raise malformed.
Proof.
  intros Hf Hfo Hx Hxo. split; [|split; reflexivity].
  unfold shunting_yard. cbn [run].
  rewrite (step_identifier _ f Hf Hfo). cbn [mbind result_bind].
  rewrite step_open_paren. cbn [mbind result_bind open_paren_rule
    append_output initial output_queue operator_stack argument_count
    element_count].
  rewrite (step_identifier _ x Hx Hxo). cbn [mbind result_bind].
  rewrite step_close_paren. reflexivity.
Qed.

End ClosingParenthesis.

(** C1, on the code: the count attached to a call is the one on top of
    [argument_count] when its parenthesis closes.  It is pushed as 0 by
    the opening parenthesis and changed by separators only (to 2 by the
    first, by one more by each other), so a call with one argument and no
    separator records 0, as a call with no argument does: for
    ["str.length('abc')"], and for every identifier applied to one
    identifier, the marker carries 0, the builder leaves the argument
    beside the call, and [parse_to_tree] raises. *)
Theorem single_argument_call_records_zero (H : Host) :
  tokenize "str.length('abc')" = ["str.length"; "("; "'abc'"; ")"]
  ∧ shunting_yard (H := CPython.Host) ["str.length"; "("; "'abc'"; ")"] =
      Ok [E_lit_str (VStr "abc"); E_fun "str.length" (Some 0)]
  ∧ build_loop (H := CPython.Host)
      [E_lit_str (VStr "abc"); E_fun "str.length" (Some 0)] [] =
      Ok [Fun "str.length" []; LitStr (VStr "abc")]
  ∧ parse_to_tree (H := CPython.Host) "str.length('abc')" = Raise malformed
  ∧ shunting_yard (H := H) ["f"; "("; "x"; ")"] =
      Ok [E_id "x"; E_fun "f" (Some 0)]
  ∧ parse_to_tree (H := H) "f(x)" = Raise malformed
  ∧ parse_to_tree (H := H) "f()" = Ok (Fun "f" [])
  ∧ parse_to_tree (H := H) "f(x, y)" = Ok (Fun "f" [Id "x"; Id "y"])
  ∧ parse_to_tree (H := H) "f(x, y, z)" = Ok (Fun "f" [Id "x"; Id "y"; Id "z"])
  ∧ (∀ f x, is_identifier f = true → is_operator f = false →
       is_identifier x = true → is_operator x = false →
       shunting_yard (H := H) [f; "("; x; ")"] =
         Ok [E_id x; E_fun f (Some 0)]
       ∧ build_loop (H := H) [E_id x; E_fun f (Some 0)] [] =
         Ok [Fun f []; Id x]
       ∧ build_tree (H := H) [E_id x; E_fun f (Some 0)] = Raise malformed)
  ∧ count_separator 0 = 2
  ∧ (∀ c, count_separator (S c) = S (S c))
  ∧ (∀ (st : state H) above name mark rest c argc,
       Forall (fun x => is_raw "(" x = false) above →
       operator_stack st = above ++ E_raw "(" :: E_fun name mark :: rest →
       argument_count st = c :: argc →
       close_paren_rule st =
         Ok {| output_queue :=
                 E_fun name (Some c) :: rev above ++ output_queue st;
               operator_stack := rest;
               argument_count := argc;
               element_count := element_count st |}).
Proof.
  do 9 (split; [reflexivity|]).
  split; [exact call_of_one_identifier|].
  split; [reflexivity|].
  split; [|exact close_paren_call].
  intros c. unfold count_separator. simpl. lia.
Qed.

(** C2, on the code: when the entry under the closed parenthesis is a
    raw ["("] or ["["], the rule subscripts that string with ["type"] and
    the conversion stops on a [TypeError], whatever stands above the
    parenthesis.  ["((1))"] does not parse, while ["1"] and ["(1)"] give
    the literal. *)
Theorem nested_parentheses_raise (H : Host) :
  tokenize "((1))" = ["("; "("; "1"; ")"; ")"]
  ∧ shunting_yard (H := H) ["("; "("; "1"; ")"; ")"] = Raise string_subscript_error
  ∧ parse_to_tree (H := H) "((1))" = Raise string_subscript_error
  ∧ parse_to_tree (H := H) "1" = Ok (Lit (number_of "1"))
  ∧ parse_to_tree (H := H) "(1)" = Ok (Lit (number_of "1"))
  ∧ parse_to_tree (H := H) "[(1)]" = Raise string_subscript_error
  ∧ parse_to_tree (H := H) "f((1))" = Raise string_subscript_error
  ∧ parse_to_tree (H := H) "((1 + 2))" = Raise string_subscript_error
  ∧ (∀ (st : state H) above s rest,
       Forall (fun x => is_raw "(" x = false) above →
       operator_stack st = above ++ E_raw "(" :: E_raw s :: rest →
       close_paren_rule st = Raise string_subscript_error).
Proof.
  do 8 (split; [reflexivity|]). exact close_paren_raw.
Qed.
